(** * Integrity hashing, checkout pricing and order persistence of
      [san_rate_env.js], embedded in Rocq.

    The development follows the source file top to bottom:
    - [Sha256]: the [crypto.createHmac('sha256', SECRET_KEY)] primitive the
      order digest is built on (SHA-256 and HMAC, RFC 2104 / FIPS 180-4);
    - [JsNum]: JavaScript numbers as IEEE binary64 ([SpecFloat] with
      [prec = 53], [emax = 1024]) together with [Number::toString],
      [toFixed(2)] and [parseFloat];
    - [Json]: JavaScript values and [JSON.stringify];
    - the handlers [generateOrderHash], [verifyOrderHash], [authenticateJWT],
      [/api/checkout] and [/api/save-order] with the [Order] model;
    - [Routes]: [sanitizeRequest] and [sanitizeObject],
      [/api/add-to-collection] and [/api/subscribe] with the [Email]
      schema. *)

From Stdlib Require Import ZArith List String Ascii Bool Lia SpecFloat Permutation.
Import ListNotations.
Open Scope Z_scope.
Open Scope list_scope.
Set Warnings "-register-all".

(* ================================================================== *)
(** ** SHA-256 and HMAC-SHA256 *)

Module Sha256.

Definition mask32 : Z := Z.ones 32.

Definition add32 (a b : Z) : Z := Z.land (a + b) mask32.

Definition rotr (x : Z) (n : Z) : Z :=
  Z.land (Z.lor (Z.shiftr x n) (Z.shiftl x (32 - n))) mask32.

Definition not32 (x : Z) : Z := Z.lxor x mask32.

Definition ch (x y z : Z) : Z := Z.lxor (Z.land x y) (Z.land (not32 x) z).
Definition maj (x y z : Z) : Z :=
  Z.lxor (Z.lxor (Z.land x y) (Z.land x z)) (Z.land y z).
Definition bsig0 (x : Z) : Z := Z.lxor (Z.lxor (rotr x 2) (rotr x 13)) (rotr x 22).
Definition bsig1 (x : Z) : Z := Z.lxor (Z.lxor (rotr x 6) (rotr x 11)) (rotr x 25).
Definition ssig0 (x : Z) : Z := Z.lxor (Z.lxor (rotr x 7) (rotr x 18)) (Z.shiftr x 3).
Definition ssig1 (x : Z) : Z := Z.lxor (Z.lxor (rotr x 17) (rotr x 19)) (Z.shiftr x 10).

(** The constants of FIPS 180-4, section 4.2.2 and 5.3.3: the first 32 bits
    of the fractional parts of the cube roots of the first 64 primes, and of
    the square roots of the first 8 primes. *)
Definition is_prime (n : nat) : bool :=
  forallb (fun d => negb (Nat.eqb (Nat.modulo n d) 0)) (seq 2 (n - 2)).

Definition first_primes : list Z :=
  map Z.of_nat (filter is_prime (seq 2 310)).

(** The largest [x] in [lo, hi) with [x^3 <= n], when [lo^3 <= n < hi^3]. *)
Fixpoint cube_root_aux (fuel : nat) (lo hi n : Z) : Z :=
  match fuel with
  | O => lo
  | S fuel' =>
      if hi - lo <=? 1 then lo
      else
        let mid := (lo + hi) / 2 in
        if mid * mid * mid <=? n then cube_root_aux fuel' mid hi n
        else cube_root_aux fuel' lo mid n
  end.

Definition cube_root (n : Z) : Z := cube_root_aux 64 0 (2 ^ 40) n.

Definition K : list Z :=
  map (fun p => Z.land (cube_root (p * 2 ^ 96)) mask32) first_primes.

Definition H0 : list Z :=
  map (fun p => Z.land (Z.sqrt (p * 2 ^ 64)) mask32) (firstn 8 first_primes).

(** Big-endian 32-bit words of a list of bytes (length a multiple of 4). *)
Fixpoint words_of_bytes (bs : list Z) : list Z :=
  match bs with
  | b0 :: b1 :: b2 :: b3 :: rest =>
      Z.lor (Z.shiftl b0 24) (Z.lor (Z.shiftl b1 16) (Z.lor (Z.shiftl b2 8) b3))
        :: words_of_bytes rest
  | _ => []
  end.

Definition bytes_of_word (w : Z) : list Z :=
  [Z.land (Z.shiftr w 24) 255; Z.land (Z.shiftr w 16) 255;
   Z.land (Z.shiftr w 8) 255; Z.land w 255].

Definition bytes_of_words (ws : list Z) : list Z := flat_map bytes_of_word ws.

(** Message schedule: the sixteen words of a block extended to 64 words.
    The accumulator holds the words computed so far, most recent first. *)
Fixpoint schedule_ext (n : nat) (rev_w : list Z) : list Z :=
  match n with
  | O => rev_w
  | S n' =>
      let w := add32 (add32 (ssig1 (nth 1 rev_w 0)) (nth 6 rev_w 0))
                     (add32 (ssig0 (nth 14 rev_w 0)) (nth 15 rev_w 0)) in
      schedule_ext n' (w :: rev_w)
  end.

Definition schedule (block : list Z) : list Z :=
  rev (schedule_ext 48 (rev block)).

Definition round (st : list Z) (kw : Z * Z) : list Z :=
  match st with
  | [a; b; c; d; e; f; g; h] =>
      let t1 := add32 (add32 (add32 h (bsig1 e)) (add32 (ch e f g) (fst kw))) (snd kw) in
      let t2 := add32 (bsig0 a) (maj a b c) in
      [add32 t1 t2; a; b; c; add32 d t1; e; f; g]
  | _ => st
  end.

Definition compress (st : list Z) (block : list Z) : list Z :=
  let st' := fold_left round (combine K (schedule block)) st in
  map (fun p => add32 (fst p) (snd p)) (combine st st').

(** Padding: [0x80], zeros up to 56 mod 64, then the bit length on 64 bits. *)
Definition pad (msg : list Z) : list Z :=
  let l := Z.of_nat (List.length msg) in
  let zeros := Z.to_nat ((55 - l) mod 64) in
  msg ++ [0x80] ++ List.repeat 0 zeros ++
  bytes_of_words [Z.shiftr (8 * l) 32; Z.land (8 * l) mask32].

Fixpoint blocks (fuel : nat) (ws : list Z) : list (list Z) :=
  match fuel with
  | O => []
  | S f =>
      match ws with
      | [] => []
      | _ => firstn 16 ws :: blocks f (skipn 16 ws)
      end
  end.

Definition hash (msg : list Z) : list Z :=
  let ws := words_of_bytes (pad msg) in
  bytes_of_words (fold_left compress (blocks (List.length ws) ws) H0).

(** HMAC with a 64-byte block. *)
Definition hmac (key msg : list Z) : list Z :=
  let k := if Nat.ltb 64 (List.length key) then hash key else key in
  let k0 := k ++ List.repeat 0 (64 - List.length k)%nat in
  let ipad := map (Z.lxor 0x36) k0 in
  let opad := map (Z.lxor 0x5c) k0 in
  hash (opad ++ hash (ipad ++ msg)).

Definition hex_digit (n : Z) : ascii :=
  if n <? 10 then ascii_of_nat (48 + Z.to_nat n)
  else ascii_of_nat (87 + Z.to_nat n).

(** [digest('hex')]: lowercase hexadecimal. *)
Fixpoint to_hex (bs : list Z) : string :=
  match bs with
  | [] => EmptyString
  | b :: rest =>
      String (hex_digit (Z.shiftr b 4)) (String (hex_digit (Z.land b 15)) (to_hex rest))
  end.

(** Node encodes a string passed to [update] or used as a key in UTF-8;
    a code unit is here an [ascii] character (0..255). *)
Definition utf8_unit (c : ascii) : list Z :=
  let n := Z.of_nat (nat_of_ascii c) in
  if n <? 128 then [n]
  else [Z.lor 0xc0 (Z.shiftr n 6); Z.lor 0x80 (Z.land n 63)].

Fixpoint utf8 (s : string) : list Z :=
  match s with
  | EmptyString => []
  | String c rest => utf8_unit c ++ utf8 rest
  end.

(** [crypto.createHmac('sha256', key).update(msg).digest('hex')]. *)
Definition hmac_sha256_hex (key msg : string) : string :=
  to_hex (hmac (utf8 key) (utf8 msg)).

End Sha256.

(* ================================================================== *)
(** ** JavaScript numbers *)

Module JsNum.

(** A JavaScript number is an IEEE binary64 value. *)
Definition num := spec_float.

Definition prec : Z := 53.
Definition emax : Z := 1024.

Definition add (x y : num) : num := SFadd prec emax x y.
Definition sub (x y : num) : num := SFsub prec emax x y.
Definition mul (x y : num) : num := SFmul prec emax x y.

(** [x < y] ([false] as soon as one side is NaN). *)
Definition ltb (x y : num) : bool := SFltb x y.

Definition isNaN (x : num) : bool :=
  match x with S754_nan => true | _ => false end.

Definition is_finite (x : num) : bool :=
  match x with S754_zero _ | S754_finite _ _ _ => true | _ => false end.

(** The Number value of an integer (round to nearest, ties to even). *)
Definition of_Z (n : Z) : num := binary_normalize prec emax n 0 false.

(** The Number value of the exact quotient [p / q] of two positive
    integers: [SFdiv] divides the two mantissas exactly and rounds once. *)
Definition of_ratio (p q : positive) : num :=
  SFdiv prec emax (S754_finite false p 0) (S754_finite false q 0).

Definition zero : num := S754_zero false.

(** Literals used by the source: [0.1], [700], [150]. *)
Definition lit_0_1 : num := of_ratio 1 10.
Definition lit_700 : num := of_Z 700.
Definition lit_150 : num := of_Z 150.

(** Exact value of a positive finite number [m * 2^e] as a fraction [P / Q]. *)
Definition frac_of (m : positive) (e : Z) : Z * Z :=
  (Zpos m * 2 ^ Z.max e 0, 2 ^ Z.max (- e) 0).

(** [P / Q < 10^n]. *)
Definition lt_pow10 (P Q n : Z) : bool :=
  P * 10 ^ Z.max (- n) 0 <? Q * 10 ^ Z.max n 0.

(** The [n] with [10^(n-1) <= P/Q < 10^n], from an estimate and a few
    correcting steps. *)
Fixpoint fix_exp (fuel : nat) (P Q n : Z) : Z :=
  match fuel with
  | O => n
  | S f =>
      if negb (lt_pow10 P Q n) then fix_exp f P Q (n + 1)
      else if lt_pow10 P Q (n - 1) then fix_exp f P Q (n - 1)
      else n
  end.

Definition dec_exp (P Q : Z) : Z :=
  fix_exp 8 P Q (((Z.log2 P - Z.log2 Q) * 30103) / 100000 + 1).

(** The Number value of [s * 10^t] ([s > 0]). *)
Definition of_dec (s t : Z) : num :=
  if 0 <=? t then of_Z (s * 10 ^ t)
  else of_ratio (Z.to_pos s) (Z.to_pos (10 ^ (- t))).

Definition same (x y : num) : bool := SFeqb x y.

(** Step 5 of [Number::toString]: the shortest digit string [s] (with [k]
    digits and decimal exponent [n]) whose value [s * 10^(n-k)] is [x];
    among two candidates the closer one, and the even one on a tie. *)
Fixpoint shortest (fuel : nat) (k : Z) (x : num) (P Q n : Z) : Z * Z * Z :=
  let t := n - k in
  let lo := if t <=? 0 then (P * 10 ^ (- t)) / Q else P / (Q * 10 ^ t) in
  let hi := lo + 1 in
  let ok_lo := (1 <=? lo) && same (of_dec lo t) x in
  let ok_hi := same (of_dec hi t) x in
  let pick_hi :=
    if ok_lo && ok_hi then
      (* compare [v - lo*10^t] with [hi*10^t - v] *)
      let two_v := 2 * P * 10 ^ Z.max (- t) 0 in
      let mid := (lo + hi) * Q * 10 ^ Z.max t 0 in
      match Z.compare two_v mid with
      | Lt => false | Gt => true | Eq => Z.even hi
      end
    else ok_hi in
  match fuel with
  | O => (lo, k, n)
  | S f =>
      if ok_lo || ok_hi then
        if pick_hi then
          (if hi =? 10 ^ k then (10 ^ (k - 1), k, n + 1) else (hi, k, n))
        else (lo, k, n)
      else shortest f (k + 1) x P Q n
  end.

Fixpoint digits_aux (fuel : nat) (z : Z) (acc : string) : string :=
  match fuel with
  | O => acc
  | S f =>
      let acc' := String (ascii_of_nat (48 + Z.to_nat (z mod 10))) acc in
      if z <? 10 then acc' else digits_aux f (z / 10) acc'
  end.

(** Decimal digits of a non-negative integer. *)
Definition digits (z : Z) : string := digits_aux 400 z EmptyString.

Fixpoint zeros (n : nat) : string :=
  match n with O => EmptyString | S n' => String "0" (zeros n') end.

(** Steps 6 to 10 of [Number::toString]: layout of [s], [k], [n]. *)
Definition layout (s k n : Z) : string :=
  let ds := digits s in
  if (k <=? n) && (n <=? 21) then (ds ++ zeros (Z.to_nat (n - k)))%string
  else if (0 <? n) && (n <=? 21) then
    (substring 0 (Z.to_nat n) ds ++ "." ++ substring (Z.to_nat n) (Z.to_nat (k - n)) ds)%string
  else if (-6 <? n) && (n <=? 0) then
    ("0." ++ zeros (Z.to_nat (- n)) ++ ds)%string
  else
    let e := n - 1 in
    let sgn := if 0 <=? e then "+"%string else "-"%string in
    if k =? 1 then (ds ++ "e" ++ sgn ++ digits (Z.abs e))%string
    else (substring 0 1 ds ++ "." ++ substring 1 (Z.to_nat (k - 1)) ds
          ++ "e" ++ sgn ++ digits (Z.abs e))%string.

(** [Number::toString(x)] (radix 10). *)
Definition toString (x : num) : string :=
  match x with
  | S754_nan => "NaN"
  | S754_zero _ => "0"
  | S754_infinity false => "Infinity"
  | S754_infinity true => "-Infinity"
  | S754_finite sg m e =>
      let '(P, Q) := frac_of m e in
      let n := dec_exp P Q in
      let '(s, k, n') := shortest 17 1 (S754_finite false m e) P Q n in
      ((if sg then "-" else EmptyString) ++ layout s k n')%string
  end.

(** [parseFloat(x.toFixed(2))]: [toFixed(2)] writes the integer [n] for which
    [n / 100 - |x|] is closest to zero (the larger one on a tie), with a
    leading "-" when [x < 0]; numbers that are not finite or whose magnitude
    is at least [10^21] are written by [Number::toString], which [parseFloat]
    reads back exactly. *)
Definition round2 (x : num) : num :=
  match x with
  | S754_finite sg m e =>
      let '(P, Q) := frac_of m e in
      if negb (lt_pow10 P Q 21) then x
      else
        let n := (200 * P + Q) / (2 * Q) in
        if n =? 0 then S754_zero sg
        else
          match of_ratio (Z.to_pos n) 100 with
          | S754_finite _ m' e' => S754_finite sg m' e'
          | r => r
          end
  | S754_zero _ => S754_zero false
  | _ => x
  end.

End JsNum.

(* ================================================================== *)
(** ** JavaScript values and [JSON.stringify] *)

Module Json.

Import JsNum.
Local Open Scope string_scope.

(** The values the handlers see.  An object is the list of its own
    properties in [[OwnPropertyKeys]] order (the order [JSON.stringify] and
    [Object.keys] enumerate), each key once.  [Date] and Mongo [ObjectId]
    values are kept apart because [JSON.stringify] writes them through their
    [toJSON] methods. *)
Inductive jsval : Type :=
| JUndefined
| JNull
| JBool (b : bool)
| JNum (n : num)
| JStr (s : string)
| JArr (items : list jsval)
| JObj (props : list (string * jsval))
| JDate (iso : string)
| JObjectId (hex : string).

(** Exceptions a handler can throw. *)
Inductive js_error : Type :=
| TypeError
| Error (message : string).

Inductive res (A : Type) : Type :=
| Ok (a : A)
| Throw (e : js_error).
Arguments Ok {A} a.
Arguments Throw {A} e.

Definition bind {A B} (r : res A) (f : A -> res B) : res B :=
  match r with Ok a => f a | Throw e => Throw e end.

Notation "'let*' x := r 'in' body" := (bind r (fun x => body))
  (at level 200, x name, r at level 100, body at level 200).

Fixpoint lookup (k : string) (ps : list (string * jsval)) : jsval :=
  match ps with
  | [] => JUndefined
  | (k', v) :: rest => if String.eqb k k' then v else lookup k rest
  end.

(** Property read [v.k]: a [TypeError] on [undefined] and [null],
    [undefined] for a missing property. *)
Definition get (v : jsval) (k : string) : res jsval :=
  match v with
  | JUndefined | JNull => Throw TypeError
  | JObj ps => Ok (lookup k ps)
  | _ => Ok JUndefined
  end.

(** JavaScript truthiness. *)
Definition truthy (v : jsval) : bool :=
  match v with
  | JUndefined | JNull => false
  | JBool b => b
  | JNum (S754_zero _) | JNum S754_nan => false
  | JNum _ => true
  | JStr s => negb (String.eqb s EmptyString)
  | _ => true
  end.

Definition is_string (v : jsval) : bool :=
  match v with JStr _ => true | _ => false end.

(** [typeof v === 'object'] *)
Definition is_object_type (v : jsval) : bool :=
  match v with
  | JNull | JArr _ | JObj _ | JDate _ | JObjectId _ => true
  | _ => false
  end.

Definition is_array (v : jsval) : bool :=
  match v with JArr _ => true | _ => false end.

(** [arr.map(f)] with a throwing callback; a [TypeError] when [arr] has no
    [map] method. *)
Fixpoint map_res {A B} (f : A -> res B) (l : list A) : res (list B) :=
  match l with
  | [] => Ok []
  | x :: rest =>
      let* y := f x in
      let* ys := map_res f rest in
      Ok (y :: ys)
  end.

Definition js_map (v : jsval) (f : jsval -> res jsval) : res (list jsval) :=
  match v with
  | JArr l => map_res f l
  | _ => Throw TypeError
  end.

Fixpoint join (sep : string) (l : list string) : string :=
  match l with
  | [] => EmptyString
  | [s] => s
  | s :: rest => (s ++ sep ++ join sep rest)%string
  end.

Definition hex4 (n : nat) : string :=
  let z := Z.of_nat n in
  String "\" (String "u" (String "0" (String "0"
    (String (Sha256.hex_digit (Z.shiftr z 4)) (String (Sha256.hex_digit (Z.land z 15)) EmptyString))))).

Definition dquote : ascii := ascii_of_nat 34.

(** QuoteJSONString, one code unit. *)
Definition quote_char (c : ascii) : string :=
  match nat_of_ascii c with
  | 8%nat => "\b" | 9%nat => "\t" | 10%nat => "\n" | 12%nat => "\f"
  | 13%nat => "\r"
  | 34%nat => String "\" (String dquote EmptyString)
  | 92%nat => "\\"
  | n => if Nat.ltb n 32 then hex4 n else String c EmptyString
  end.

Fixpoint quote_body (s : string) : string :=
  match s with
  | EmptyString => EmptyString
  | String c rest => (quote_char c ++ quote_body rest)%string
  end.

Definition quote (s : string) : string :=
  (String dquote (quote_body s) ++ String dquote EmptyString)%string.

(** SerializeJSONProperty: [None] is [undefined] (the member is left out of
    an object and written [null] in an array). *)
Fixpoint ser (v : jsval) : option string :=
  match v with
  | JUndefined => None
  | JNull => Some "null"
  | JBool true => Some "true"
  | JBool false => Some "false"
  | JNum n => Some (if is_finite n then toString n else "null")
  | JStr s => Some (quote s)
  | JDate iso => Some (quote iso)
  | JObjectId h => Some (quote h)
  | JArr l =>
      Some ("[" ++ join ","
              (map (fun x => match ser x with Some s => s | None => "null" end) l)
            ++ "]")%string
  | JObj ps =>
      Some ("{" ++ join ","
              (flat_map (fun '(k, x) =>
                           match ser x with
                           | Some s => [(quote k ++ ":" ++ s)%string]
                           | None => []
                           end) ps)
            ++ "}")%string
  end.

(** [JSON.stringify] of an object or array (always a string). *)
Definition stringify (v : jsval) : string :=
  match ser v with Some s => s | None => EmptyString end.

End Json.

(* ================================================================== *)
(** ** The request handlers of [san_rate_env.js] *)

Module Server.

Import JsNum Json.
Local Open Scope string_scope.

(** *** [generateOrderHash] and [verifyOrderHash] *)

(** The cart line of the hashed projection:
    [{ productCode, productName, price, size }] in this key order. *)
Definition project_item (item : jsval) : res jsval :=
  let* productCode := get item "productCode" in
  let* productName := get item "productName" in
  let* price := get item "price" in
  let* size := get item "size" in
  Ok (JObj [("productCode", productCode); ("productName", productName);
            ("price", price); ("size", size)]).

(** The string given to the HMAC:
    [JSON.stringify({ cart: order.cart.map(...), address: order.address,
    pricing: order.pricing })]. *)
Definition orderString (order : jsval) : res string :=
  let* cart := get order "cart" in
  let* items := js_map cart project_item in
  let* address := get order "address" in
  let* pricing := get order "pricing" in
  Ok (stringify (JObj [("cart", JArr items); ("address", address);
                       ("pricing", pricing)])).

(** [generateOrderHash(order)] under the configured [SECRET_KEY]. *)
Definition generateOrderHash (SECRET_KEY : string) (order : jsval) : res string :=
  let* orderStr := orderString order in
  Ok (Sha256.hmac_sha256_hex SECRET_KEY orderStr).

(** [verifyOrderHash(order, hash)]: [computedHash === hash]. *)
Definition verifyOrderHash (SECRET_KEY : string) (order hash : jsval) : res bool :=
  let* computedHash := generateOrderHash SECRET_KEY order in
  Ok (match hash with JStr h => String.eqb computedHash h | _ => false end).

(** *** [authenticateJWT] *)

(** The outcome of [jwt.verify(token, JWT_SECRET)] (library [jsonwebtoken]):
    the decoded payload, or the error it throws. *)
Inductive jwt_error : Type :=
| JsonWebTokenError (message : string)
| TokenExpiredError
| NotBeforeError.

Inductive jwt_result : Type :=
| JwtOk (decoded : jsval)
| JwtFail (err : jwt_error).

(** The first check of [jsonwebtoken]'s [verify]: a token that does not
    split into three dot-separated parts is rejected as ["jwt malformed"];
    [rest] stands for the remaining checks (signature, [exp], [nbf]). *)
Fixpoint split_on (sep : ascii) (s : string) : list string :=
  match s with
  | EmptyString => [EmptyString]
  | String c rest =>
      match split_on sep rest with
      | [] => []
      | w :: ws => if Ascii.eqb c sep then EmptyString :: w :: ws
                   else String c w :: ws
      end
  end.

Definition jwt_verify_parts (rest : string -> jwt_result) (token : string) : jwt_result :=
  if Nat.eqb (List.length (split_on "." token)) 3 then rest token
  else JwtFail (JsonWebTokenError "jwt malformed").

(** What the middleware does with a request: answer it, or call [next()]
    with [req.clientId] set. *)
Inductive auth_outcome : Type :=
| AuthReject (status : Z) (message : string)
| AuthNext (clientId : jsval).

(** [authenticateJWT], for the [authorization] header ([None] when absent)
    and the library's verdict [jwt_verify] on a token. *)
Definition authenticateJWT (jwt_verify : string -> jwt_result)
    (authorization : option string) : auth_outcome :=
  match authorization with
  | None => AuthReject 401 "Authorization header missing"
  | Some authHeader =>
      if String.eqb authHeader EmptyString
      then AuthReject 401 "Authorization header missing"
      else
        match nth_error (split_on " " authHeader) 1 with
        | None => AuthReject 401 "Token not provided"
        | Some token =>
            if String.eqb token EmptyString
            then AuthReject 401 "Token not provided"
            else
              match jwt_verify token with
              | JwtOk decoded =>
                  match get decoded "clientId" with
                  | Ok clientId => AuthNext clientId
                  | Throw _ => AuthReject 403 "Invalid or expired token"
                  end
              | JwtFail _ => AuthReject 403 "Invalid or expired token"
              end
        end
  end.

(** *** [/api/checkout] *)

(** [String.prototype.trim]: white space and line terminators among the
    code units 0..255 are TAB, LF, VT, FF, CR, SP and NBSP. *)
Definition is_ws (c : ascii) : bool :=
  match nat_of_ascii c with
  | 9%nat | 10%nat | 11%nat | 12%nat | 13%nat | 32%nat | 160%nat => true
  | _ => false
  end.

Fixpoint trim_left (s : string) : string :=
  match s with
  | String c rest => if is_ws c then trim_left rest else s
  | EmptyString => EmptyString
  end.

Fixpoint rev_string (s : string) (acc : string) : string :=
  match s with
  | EmptyString => acc
  | String c rest => rev_string rest (String c acc)
  end.

Definition trim (s : string) : string :=
  rev_string (trim_left (rev_string (trim_left s) EmptyString)) EmptyString.

(** A product document of the [product] collection. *)
Record product : Type := {
  p_id : string;                  (* [_id] *)
  product_code : option string;   (* [None]: no string stored *)
  product_name : jsval;
  product_price : jsval;
  product_imageurl : jsval
}.

(** [sanitizeMongoQuery]: a query with a top-level key starting with "$" is
    refused. *)
Definition sanitizeMongoQuery (keys : list string) : res unit :=
  if existsb (fun k => String.prefix "$" k) keys
  then Throw (Error "Invalid query format") else Ok tt.

(** [Product.find({ product_code: { $in: productCodes } })], in collection
    order. *)
Definition find_products (catalog : list product) (codes : list string) : list product :=
  filter (fun p => match product_code p with
                   | Some c => existsb (String.eqb c) codes
                   | None => false
                   end) catalog.

Definition string_of (v : jsval) : string :=
  match v with JStr s => s | _ => EmptyString end.

(** The [productCodes] callback. *)
Definition code_of_item (item : jsval) : res string :=
  let* pc := get item "productCode" in
  match pc with
  | JStr c => if String.eqb (trim c) EmptyString
              then Throw (Error "Invalid product code in cart")
              else Ok (trim c)
  | _ => Throw (Error "Invalid product code in cart")
  end.

(** The [enhancedCart] callback: [None] is the [null] that [filter(Boolean)]
    removes. *)
Definition enhance_item (products : list product) (cartItem : jsval) : res (option jsval) :=
  let* code := get cartItem "productCode" in
  match find (fun p => match product_code p, code with
                       | Some c, JStr c' => String.eqb c c'
                       | _, _ => false
                       end) products with
  | None => Ok None
  | Some productData =>
      let* sz := get cartItem "size" in
      let size := match sz with JStr s => trim s | _ => EmptyString end in
      if String.eqb size EmptyString then Ok None
      else
        Ok (Some (JObj [("_id", JObjectId (p_id productData));
                        ("productCode", match product_code productData with
                                        | Some c => JStr c | None => JUndefined end);
                        ("productName", product_name productData);
                        ("price", product_price productData);
                        ("imageUrl", product_imageurl productData);
                        ("size", JStr size)]))
  end.

Fixpoint filter_some {A} (l : list (option A)) : list A :=
  match l with
  | [] => []
  | Some x :: rest => x :: filter_some rest
  | None :: rest => filter_some rest
  end.

(** The [reduce] callback: a price that is not a number, or is NaN, counts 0. *)
Definition price_of (item : jsval) : num :=
  match get item "price" with
  | Ok (JNum p) => if isNaN p then zero else p
  | _ => zero
  end.

Definition subtotal_of (items : list jsval) : num :=
  fold_left (fun sum item => add sum (price_of item)) items zero.

Record pricing : Type := {
  subtotal : num; discount : num; delivery : num; total : num
}.

(** [discount], [delivery] and [total] from [subtotal]. *)
Definition price_order (st : num) : pricing :=
  let d := round2 (mul st lit_0_1) in
  let dl := if ltb lit_700 st then zero else lit_150 in
  {| subtotal := st; discount := d; delivery := dl;
     total := round2 (sub (add st dl) d) |}.

Definition pricing_json (p : pricing) : jsval :=
  JObj [("subtotal", JNum (subtotal p)); ("discount", JNum (discount p));
        ("delivery", JNum (delivery p)); ("total", JNum (total p))].

Inductive checkout_reply : Type :=
| CheckoutOk (order : jsval) (orderHash : string)
| CheckoutErr (status : Z) (message : string).

(** The body of the [try] block. *)
Definition checkout_try (SECRET_KEY : string) (catalog : list product) (now : string)
    (cart address : jsval) : res checkout_reply :=
  let* productCodes := js_map cart (fun item => let* c := code_of_item item in Ok (JStr c)) in
  let* _ := sanitizeMongoQuery ["product_code"] in
  let products := find_products catalog (map string_of productCodes) in
  match products with
  | [] => Ok (CheckoutErr 404 "No products found in database")
  | _ =>
      let* enhanced := js_map cart (fun item =>
                         let* r := enhance_item products item in
                         Ok (match r with Some v => v | None => JNull end)) in
      let enhancedCart := filter truthy enhanced in
      match enhancedCart with
      | [] => Ok (CheckoutErr 400 "No valid items in cart")
      | _ =>
          let p := price_order (subtotal_of enhancedCart) in
          let orderSummary :=
            JObj [("cart", JArr enhancedCart); ("address", address);
                  ("pricing", pricing_json p); ("orderDate", JDate now);
                  ("status", JStr "pending")] in
          let* orderHash := generateOrderHash SECRET_KEY orderSummary in
          Ok (CheckoutOk orderSummary orderHash)
      end
  end.

(** [POST /api/checkout] after [sanitizeRequest] and [authenticateJWT], for
    [const { cart, address } = req.body] and the time [new Date()] as an ISO
    string. *)
Definition checkout (SECRET_KEY : string) (catalog : list product) (now : string)
    (cart address : jsval) : checkout_reply :=
  if negb (truthy cart) || negb (is_array cart)
     || match cart with JArr [] => true | _ => false end
  then CheckoutErr 400 "Invalid request. Cart items are required."
  else if negb (truthy address) || negb (is_object_type address)
  then CheckoutErr 400 "Invalid request. Address details are required."
  else
    match checkout_try SECRET_KEY catalog now cart address with
    | Ok r => r
    | Throw _ => CheckoutErr 500 "Server error processing order"
    end.

(** *** [/api/save-order] and the [Order] model *)

(** The [orders] collection: its documents with their [_id]s, a bound above
    every [_id] in it (a generated ObjectId is fresh: [next_id] stands for
    it), and whether the database can be reached; when it cannot, every
    [save()] rejects. *)
Record order_store : Type := {
  docs : list (Z * jsval);
  next_id : Z;
  online : bool
}.

(** The parts of Mongoose's casting that depend on the runtime rather than
    on the schema:
    - [new_date v]: [new Date(v)] as [castDate] calls it on a value that is
      not [null], [''], a [Date] or a boolean, as the ISO form of the date,
      [None] for an Invalid Date;
    - [date_toString iso]: [Date.prototype.toString] of that date;
    - [cast_objectid v]: the [_id] a client-supplied non-null [_id] casts
      to, [None] when [castObjectId] refuses it;
    - [number_castable v]: whether [castNumber] accepts [v] (for the
      [__v] path of the schema). *)
Record mongoose_casts : Type := {
  new_date : jsval -> option string;
  date_toString : string -> string;
  cast_objectid : jsval -> option Z;
  number_castable : jsval -> bool
}.

(** [castDate] (path [orderDate]: [{ type: Date }]), on a value that is not
    [undefined]; [None] is the [CastError]. *)
Definition cast_date (M : mongoose_casts) (v : jsval) : option jsval :=
  match v with
  | JNull => Some JNull
  | JStr s =>
      if String.eqb s EmptyString then Some JNull
      else match new_date M v with Some iso => Some (JDate iso) | None => None end
  | JDate iso => Some (JDate iso)
  | JBool _ => None
  | _ => match new_date M v with Some iso => Some (JDate iso) | None => None end
  end.

(** [castString] (path [status]: [{ type: String }]): [null] is kept, an
    object with a non-empty string [_id] gives that [_id], a value whose
    [toString] is not [Object.prototype.toString] and which is not an array
    gives [value.toString()]; anything else is a [CastError].  A plain
    object of a request body has no [toString] of its own that could be
    called: an own [toString] property holds a JSON value, and calling it
    throws, which Mongoose also reports as a [CastError]. *)
Definition cast_string (M : mongoose_casts) (v : jsval) : option jsval :=
  match v with
  | JUndefined | JNull => Some v
  | JBool b => Some (JStr (if b then "true" else "false"))
  | JNum n => Some (JStr (toString n))
  | JStr s => Some (JStr s)
  | JArr _ => None
  | JObj ps =>
      match lookup "_id" ps with
      | JStr s => if String.eqb s EmptyString then None else Some (JStr s)
      | _ => None
      end
  | JDate iso => Some (JStr (date_toString M iso))
  | JObjectId h => Some (JStr h)
  end.

Definition remove_prop (k : string) (ps : list (string * jsval)) : list (string * jsval) :=
  filter (fun p => negb (String.eqb (fst p) k)) ps.

Fixpoint put_prop (k : string) (v : jsval) (ps : list (string * jsval)) :
    list (string * jsval) :=
  match ps with
  | [] => []
  | (k', x) :: rest =>
      if String.eqb k k' then (k', v) :: rest else (k', x) :: put_prop k v rest
  end.

(** A schema path with a default: the default when the value is
    [undefined], the cast value otherwise. *)
Definition cast_path (k : string) (cast : jsval -> option jsval) (dflt : jsval)
    (ps : list (string * jsval)) : option (list (string * jsval)) :=
  match lookup k ps with
  | JUndefined => Some (remove_prop k ps ++ [(k, dflt)])%list
  | v => match cast v with Some v' => Some (put_prop k v' ps) | None => None end
  end.

(** The [minimize] option of [toObject], which [save()] applies (Mongoose's
    [clone] with [minimize: true]): an object left without keys is dropped,
    unless it is an element of an array, and [undefined] members are left
    out. *)
Fixpoint minimize (in_array : bool) (v : jsval) : jsval :=
  match v with
  | JObj ps =>
      let ps' := flat_map (fun '(k, x) =>
                             match minimize false x with
                             | JUndefined => []
                             | x' => [(k, x')]
                             end) ps in
      match ps' with
      | [] => if in_array then JObj [] else JUndefined
      | _ => JObj ps'
      end
  | JArr items => JArr (map (minimize true) items)
  | _ => v
  end.

(** The document [new Order(order)] writes, without its [_id]: [cart],
    [address] and [pricing] ([Array] of [Mixed], and [Mixed]) and every
    other field ([strict: false]) as given; [orderDate] cast to a [Date]
    with default [Date.now] ([now]); [status] cast to a [String] with
    default ['pending']; the version key [__v] (a [Number] path) set to 0
    on insert; then [minimize].  [None]: a [CastError], which makes [save()]
    reject.  The top-level keys are taken as field names: Mongoose's [$set]
    reads a key holding a "." as a nested path, which is not modelled. *)
Definition order_document (M : mongoose_casts) (now : string)
    (ps : list (string * jsval)) : option (list (string * jsval)) :=
  match cast_path "orderDate" (cast_date M) (JDate now) ps with
  | None => None
  | Some ps1 =>
      match cast_path "status" (cast_string M) (JStr "pending") ps1 with
      | None => None
      | Some ps2 =>
          if match lookup "__v" ps2 with
             | JUndefined => true
             | v => number_castable M v
             end
          then
            let fields := remove_prop "__v" (remove_prop "_id" ps2) in
            Some (flat_map (fun '(k, x) =>
                              match minimize false x with
                              | JUndefined => []
                              | x' => [(k, x')]
                              end) fields ++ [("__v", JNum zero)])%list
          else None
      end
  end.

(** The document's [_id]: a fresh ObjectId when the order has none, else
    the cast of the client's value; an [_id] of [null] makes [save()]
    reject ("document must have an _id before saving"). *)
Definition order_id (M : mongoose_casts) (st : order_store)
    (ps : list (string * jsval)) : option Z :=
  match lookup "_id" ps with
  | JUndefined => Some (next_id st)
  | JNull => None
  | v => cast_objectid M v
  end.

(** [new Order(order).save()] on the body's [order] (an object once
    save-order's checks pass): the new collection and the saved [_id], or
    [None] when [save()] rejects: a cast error, an [_id] already in the
    collection (E11000 on the unique [_id] index), or no database. *)
Definition save (M : mongoose_casts) (now : string) (st : order_store) (order : jsval)
    : option (order_store * Z) :=
  match order with
  | JObj ps =>
      match order_document M now ps, order_id M st ps with
      | Some doc, Some id =>
          if online st && negb (existsb (fun d => Z.eqb (fst d) id) (docs st))
          then Some ({| docs := (docs st ++ [(id, JObj doc)])%list;
                        next_id := Z.max (next_id st) (id + 1);
                        online := online st |}, id)
          else None
      | _, _ => None
      end
  | _ => None
  end.

Inductive reply : Type :=
| Reply (status : Z) (message : string) (orderId : option Z).

Definition msg_tampered : string :=
  "Order verification failed. The order data may have been tampered with.".

(** The body of the [try] block; [now] is the time [Date.now] gives the
    new document. *)
Definition save_order_try (SECRET_KEY : string) (M : mongoose_casts) (now : string)
    (st : order_store) (order orderHash : jsval) : res (reply * order_store) :=
  if negb (truthy order) || negb (truthy orderHash) || negb (is_string orderHash)
  then Ok (Reply 400 "Invalid order data or missing hash" None, st)
  else
    let* cart := get order "cart" in
    let* address := get order "address" in
    let* pricing := get order "pricing" in
    if negb (truthy cart) || negb (is_array cart) || negb (truthy address)
       || negb (truthy pricing)
    then Ok (Reply 400 "Order is missing required fields" None, st)
    else
      let* ok := verifyOrderHash SECRET_KEY order orderHash in
      if negb ok then Ok (Reply 400 msg_tampered None, st)
      else
        match save M now st order with
        | Some (st', id) => Ok (Reply 200 "Order saved successfully" (Some id), st')
        | None => Throw (Error "save() rejected")
        end.

(** [POST /api/save-order] after the middleware, for
    [const { order, orderHash } = req.body]. *)
Definition save_order (SECRET_KEY : string) (M : mongoose_casts) (now : string)
    (st : order_store) (order orderHash : jsval) : reply * order_store :=
  match save_order_try SECRET_KEY M now st order orderHash with
  | Ok r => r
  | Throw _ => (Reply 500 "Server error saving order" None, st)
  end.

End Server.

(* ================================================================== *)
(** ** Changes to an order summary, and concrete requests *)

Module Edit.

Import JsNum Json Server.
Local Open Scope string_scope.

(** Replace the value of the first property [k] (nothing if absent). *)
Fixpoint set_prop (k : string) (v : jsval) (ps : list (string * jsval)) :
    list (string * jsval) :=
  match ps with
  | [] => []
  | (k', x) :: rest =>
      if String.eqb k k' then (k', v) :: rest else (k', x) :: set_prop k v rest
  end.

(** Replace the [i]-th element of a list (nothing if out of range). *)
Fixpoint set_nth {A} (i : nat) (v : A) (l : list A) : list A :=
  match l, i with
  | [], _ => []
  | _ :: rest, O => v :: rest
  | x :: rest, S i' => x :: set_nth i' v rest
  end.

(** The keys of the cart lines that enter the digest. *)
Definition hashed_line_keys : list string :=
  ["productCode"; "productName"; "price"; "size"].

(** A field inside the hashed projection. *)
Inductive hashed_field : Type :=
| LineField (i : nat) (f : string)   (* [order.cart[i][f]] *)
| AddressField (f : string)          (* [order.address[f]] *)
| PricingField (f : string).         (* [order.pricing[f]] *)

Definition edit_in (f : string) (v : jsval) (x : jsval) : jsval :=
  match x with JObj ps => JObj (set_prop f v ps) | _ => x end.

(** The order with the field [fld] set to [v]. *)
Definition mutate (fld : hashed_field) (v : jsval) (order : jsval) : jsval :=
  match order with
  | JObj ps =>
      match fld with
      | LineField i f =>
          match lookup "cart" ps with
          | JArr lines =>
              JObj (set_prop "cart"
                      (JArr (set_nth i (edit_in f v (nth i lines JUndefined)) lines)) ps)
          | _ => order
          end
      | AddressField f => JObj (set_prop "address" (edit_in f v (lookup "address" ps)) ps)
      | PricingField f => JObj (set_prop "pricing" (edit_in f v (lookup "pricing" ps)) ps)
      end
  | _ => order
  end.

(** The value the field [fld] holds in [order], when it is there. *)
Definition field_value (fld : hashed_field) (order : jsval) : option jsval :=
  let inner (x : jsval) (f : string) :=
    match x with
    | JObj ps => if existsb (String.eqb f) (map fst ps) then Some (lookup f ps) else None
    | _ => None
    end in
  match order with
  | JObj ps =>
      match fld with
      | LineField i f =>
          if existsb (String.eqb f) hashed_line_keys then
            match lookup "cart" ps with
            | JArr lines => match nth_error lines i with
                            | Some line => inner line f
                            | None => None
                            end
            | _ => None
            end
          else None
      | AddressField f => inner (lookup "address" ps) f
      | PricingField f => inner (lookup "pricing" ps) f
      end
  | _ => None
  end.

(** Two orders that agree on the hashed projection: the same [address] and
    [pricing], and carts of the same length whose lines agree on
    [productCode], [productName], [price] and [size]; anything else
    ([orderDate], [status], a line's [imageUrl] or [_id], ...) may differ. *)
Definition same_projection (order order' : jsval) : Prop :=
  exists ps ps' lines lines',
    order = JObj ps /\ order' = JObj ps' /\
    lookup "cart" ps = JArr lines /\ lookup "cart" ps' = JArr lines' /\
    lookup "address" ps = lookup "address" ps' /\
    lookup "pricing" ps = lookup "pricing" ps' /\
    Forall2 (fun l l' => forall f, In f hashed_line_keys -> get l f = get l' f) lines lines'.

(** The checks [/api/save-order] makes before verifying the digest. *)
Definition save_order_checks (order orderHash : jsval) : bool :=
  truthy order && truthy orderHash && is_string orderHash &&
  match order with
  | JObj ps =>
      truthy (lookup "cart" ps) && is_array (lookup "cart" ps) &&
      truthy (lookup "address" ps) && truthy (lookup "pricing" ps)
  | _ => false
  end.

(** [F w] places the serialization of [w] at a fixed position of the
    serialization of a larger value: [ser (F w)] is [L ++ ser w ++ R]. *)
Definition ser_ctx (F : jsval -> jsval) : Prop :=
  exists L R, forall w sw, ser w = Some sw -> ser (F w) = Some (L ++ sw ++ R).

(** The pricing object of a checkout reply. *)
Definition pricing_of (r : checkout_reply) : option jsval :=
  match r with
  | CheckoutOk (JObj ps) _ => Some (lookup "pricing" ps)
  | _ => None
  end.

(** What the [enhancedCart] callback keeps of a cart line: [None] for the
    [null] that [filter(Boolean)] removes (and for a line it throws on). *)
Definition line_kept (products : list product) (cartItem : jsval) : option jsval :=
  match enhance_item products cartItem with Ok r => r | Throw _ => None end.

(** The [orderSummary] checkout builds from an enhanced cart. *)
Definition order_summary (now : string) (address : jsval) (cart : list jsval) : jsval :=
  JObj [("cart", JArr cart); ("address", address);
        ("pricing", pricing_json (price_order (subtotal_of cart)));
        ("orderDate", JDate now); ("status", JStr "pending")].

Definition cart_of (r : checkout_reply) : option jsval :=
  match r with
  | CheckoutOk (JObj ps) _ => Some (lookup "cart" ps)
  | _ => None
  end.

End Edit.

(* ================================================================== *)
(** ** The other handlers and helpers of [san_rate_env.js] *)

Module Routes.

Import JsNum Json Server.
Local Open Scope string_scope.

(** *** [sanitizeRequest] and [sanitizeObject] *)

Section Sanitize.

(** The [xss] filter of the [xss] package, on one string. *)
Variable xss : string -> string.

(** [sanitizeObject(obj)], as the value it leaves in place of [obj]
    (the function mutates [obj] and returns nothing).  A [Date] or
    [ObjectId] has no own enumerable keys and is left as it is. *)
Fixpoint sanitizeObject (obj : jsval) : jsval :=
  match obj with
  | JObj ps =>
      JObj (map (fun '(key, x) =>
                   (key, match x with
                         | JStr s => JStr (xss s)
                         | JArr items =>
                             JArr (map (fun item =>
                                          match item with
                                          | JStr s => JStr (xss s)
                                          | JArr _ | JObj _ | JDate _ | JObjectId _ =>
                                              sanitizeObject item
                                          | _ => item
                                          end) items)
                         | JObj _ | JDate _ | JObjectId _ => sanitizeObject x
                         | _ => x
                         end)) ps)
  | JArr items =>
      (* [Object.keys] of an array: its indices *)
      JArr (map (fun x =>
                   match x with
                   | JStr s => JStr (xss s)
                   | JArr items' =>
                       JArr (map (fun item =>
                                    match item with
                                    | JStr s => JStr (xss s)
                                    | JArr _ | JObj _ | JDate _ | JObjectId _ =>
                                        sanitizeObject item
                                    | _ => item
                                    end) items')
                   | JObj _ | JDate _ | JObjectId _ => sanitizeObject x
                   | _ => x
                   end) items)
  | _ => obj
  end.

(** The [forEach] callback of [sanitizeRequest] on [req.body[key]]. *)
Definition sanitize_body_prop (x : jsval) : jsval :=
  match x with
  | JStr s => JStr (xss s)
  | JArr _ | JObj _ | JDate _ | JObjectId _ => sanitizeObject x
  | _ => x
  end.

(** [req.body] after [sanitizeRequest].  [Object.keys] of a primitive
    body gives nothing that can be assigned, so such a body is left as
    it is. *)
Definition sanitizeRequest (body : jsval) : jsval :=
  if truthy body then
    match body with
    | JObj ps => JObj (map (fun '(key, x) => (key, sanitize_body_prop x)) ps)
    | JArr items => JArr (map sanitize_body_prop items)
    | _ => body
    end
  else body.

(** Applying [f] to every string value at any depth, keys left alone. *)
Fixpoint map_strings (f : string -> string) (v : jsval) : jsval :=
  match v with
  | JStr s => JStr (f s)
  | JArr items => JArr (map (map_strings f) items)
  | JObj ps => JObj (map (fun '(key, x) => (key, map_strings f x)) ps)
  | _ => v
  end.

End Sanitize.

(** Induction over [jsval] through the elements of arrays and the values
    of objects. *)
Section JsvalInd.

Variable P : jsval -> Prop.
Hypothesis HUndefined : P JUndefined.
Hypothesis HNull : P JNull.
Hypothesis HBool : forall b, P (JBool b).
Hypothesis HNum : forall n, P (JNum n).
Hypothesis HStr : forall s, P (JStr s).
Hypothesis HArr : forall items, Forall P items -> P (JArr items).
Hypothesis HObj : forall ps, Forall (fun kv => P (snd kv)) ps -> P (JObj ps).
Hypothesis HDate : forall iso, P (JDate iso).
Hypothesis HObjectId : forall h, P (JObjectId h).

Fixpoint jsval_ind' (v : jsval) : P v :=
  match v with
  | JUndefined => HUndefined
  | JNull => HNull
  | JBool b => HBool b
  | JNum n => HNum n
  | JStr s => HStr s
  | JArr items =>
      HArr items
        ((fix go (l : list jsval) : Forall P l :=
            match l with
            | [] => Forall_nil P
            | x :: rest => Forall_cons x (jsval_ind' x) (go rest)
            end) items)
  | JObj ps =>
      HObj ps
        ((fix go (l : list (string * jsval)) : Forall (fun kv => P (snd kv)) l :=
            match l with
            | [] => Forall_nil _
            | (k, x) :: rest =>
                Forall_cons (P := fun kv => P (snd kv)) (k, x) (jsval_ind' x) (go rest)
            end) ps)
  | JDate iso => HDate iso
  | JObjectId h => HObjectId h
  end.

End JsvalInd.

(** *** [/api/add-to-collection] *)

(** [typeof v === 'string' ? v.trim() : ''] *)
Definition trimmed_string (v : jsval) : string :=
  match v with JStr s => trim s | _ => EmptyString end.

(** The [product] collection as a query sees it: its documents in
    collection order, or a database that cannot answer, on which every
    query rejects with an error. *)
Inductive product_db : Type :=
| Products (catalog : list product)
| ProductsDown (err : js_error).

(** [await Product.findOne({ product_code: code })]: the first matching
    document in collection order, [null] when none matches, or the
    rejection. *)
Definition findOne_by_code (db : product_db) (code : string) : res (option product) :=
  match db with
  | Products catalog =>
      Ok (find (fun p => match product_code p with
                         | Some c => String.eqb c code
                         | None => false
                         end) catalog)
  | ProductsDown err => Throw err
  end.

Inductive collection_reply : Type :=
| CollectionOk (product : product) (size : string)
| CollectionErr (status : Z) (message : string).

(** [POST /api/add-to-collection] after the middleware, for
    [req.body.productName] and [req.body.size]. *)
Definition add_to_collection (db : product_db)
    (productName_v size_v : jsval) : collection_reply :=
  let productName := trimmed_string productName_v in
  let size := trimmed_string size_v in
  if String.eqb productName EmptyString || String.eqb size EmptyString
  then CollectionErr 400 "Product name and size are required"
  else
    match (let* _ := sanitizeMongoQuery ["product_code"] in
           findOne_by_code db productName) with
    | Throw _ => CollectionErr 500 "Server error"
    | Ok (Some p) => CollectionOk p size
    | Ok None => CollectionErr 404 "Product not found"
    end.

(** *** [/api/subscribe] *)

(** [String.prototype.toLowerCase] on the code units 0..255: A..Z and the
    Latin-1 capitals U+00C0..U+00DE except U+00D7 move up by 0x20. *)
Definition lower_char (c : ascii) : ascii :=
  let n := nat_of_ascii c in
  if (Nat.leb 65 n && Nat.leb n 90)
     || (Nat.leb 192 n && Nat.leb n 222 && negb (Nat.eqb n 215))
  then ascii_of_nat (n + 32) else c.

Fixpoint toLowerCase (s : string) : string :=
  match s with
  | EmptyString => EmptyString
  | String c rest => String (lower_char c) (toLowerCase rest)
  end.

(** [\w] of a regular expression without the [u] flag. *)
Definition is_word_char (c : ascii) : bool :=
  let n := nat_of_ascii c in
  (Nat.leb 48 n && Nat.leb n 57) || (Nat.leb 65 n && Nat.leb n 90)
  || Nat.eqb n 95 || (Nat.leb 97 n && Nat.leb n 122).

Definition all_chars (p : ascii -> bool) (s : string) : bool :=
  forallb p (list_ascii_of_string s).

Definition label_char (c : ascii) : bool :=
  is_word_char c || Ascii.eqb c "-"%char.

(** The schema's validator [/^[\w-\.]+@([\w-]+\.)+[\w-]{2,4}$/.test(v)].
    No class of the pattern holds "@", so a match has exactly one "@"; no
    class after it holds ".", so the domain is split at its dots into the
    labels of [([\w-]+\.)+] (one or more) and the last part [[\w-]{2,4}]. *)
Definition email_pattern (v : string) : bool :=
  match split_on "@" v with
  | [local; domain] =>
      negb (String.eqb local EmptyString)
      && all_chars (fun c => is_word_char c || Ascii.eqb c "-"%char
                             || Ascii.eqb c "."%char) local
      && match rev (split_on "." domain) with
         | tld :: ((_ :: _) as labels) =>
             Nat.leb 2 (String.length tld) && Nat.leb (String.length tld) 4
             && all_chars label_char tld
             && forallb (fun l => negb (String.eqb l EmptyString)
                                  && all_chars label_char l) labels
         | _ => false
         end
  | _ => false
  end.

(** A document of the [emails] collection. *)
Record email_doc : Type := {
  email : string;
  subscriptionDate : string
}.

(** [new Email({ email })]: the schema's setters [trim] and [lowercase]. *)
Definition email_cast (v : string) : string := toLowerCase (trim v).

Inductive subscribe_error : Type :=
| SubTypeError             (* [req.body.email.trim] is not a function *)
| SubValidationError.      (* [save()] rejected by the schema *)

Inductive subscribe_reply : Type :=
| SubscribeReply (status : Z) (message : string).

Section Subscribe.

(** [validator.isEmail], behind [isValidEmail]. *)
Variable isEmail : string -> bool.

(** The body of the [try] block, for [req.body.email], the collection and
    the time [Date.now] gives the new document. *)
Definition subscribe_try (now : string) (emails : list email_doc)
    (body_email : jsval) : subscribe_error + (subscribe_reply * list email_doc) :=
  match (if truthy body_email
         then match body_email with
              | JStr s => inr (toLowerCase (trim s))
              | _ => inl SubTypeError
              end
         else inr EmptyString) with
  | inl e => inl e
  | inr email_v =>
      if String.eqb email_v EmptyString
      then inr (SubscribeReply 400 "Email is required", emails)
      else if negb (isEmail email_v)
      then inr (SubscribeReply 400 "Please enter a valid email address", emails)
      else if existsb (fun d => String.eqb (email d) email_v) emails
      then inr (SubscribeReply 409 "This email is already subscribed", emails)
      else
        let v := email_cast email_v in
        if String.eqb v EmptyString || negb (email_pattern v)
        then inl SubValidationError
        else inr (SubscribeReply 201 "Successfully subscribed to newsletter!",
                  (emails ++ [{| email := v; subscriptionDate := now |}])%list)
  end.

(** [POST /api/subscribe] after the middleware. *)
Definition subscribe (now : string) (emails : list email_doc) (body_email : jsval)
    : subscribe_reply * list email_doc :=
  match subscribe_try now emails body_email with
  | inr r => r
  | inl SubValidationError =>
      (SubscribeReply 400 "Please enter a valid email address", emails)
  | inl SubTypeError =>
      (SubscribeReply 500 "Server error, please try again later", emails)
  end.

(** Requests to [/api/subscribe], each with its time and body [email],
    served one after the other. *)
Fixpoint subscribe_all (reqs : list (string * jsval)) (emails : list email_doc)
    : list email_doc :=
  match reqs with
  | [] => emails
  | (t, v) :: rest => subscribe_all rest (snd (subscribe t emails v))
  end.

End Subscribe.

(** *** Helpers of the statements below *)

(** A string without a space: one word of the [authorization] header. *)
Definition no_space (s : string) : bool :=
  all_chars (fun c => negb (Ascii.eqb c " "%char)) s.

(** The digest's alphabet: [0-9a-f]. *)
Definition is_lower_hex (c : ascii) : bool :=
  let n := nat_of_ascii c in
  (Nat.leb 48 n && Nat.leb n 57) || (Nat.leb 97 n && Nat.leb n 102).

End Routes.

Module Sample.

Import JsNum Json Server Routes.
Local Open Scope string_scope.

Definition key : string := "s3cret".
Definition now : string := "2026-10-19T09:30:00.000Z".

Definition tee (price : jsval) : product :=
  {| p_id := "652f1c0e9b1e8a0012a4b001"; product_code := Some "A1";
     product_name := JStr "Tee"; product_price := price;
     product_imageurl := JStr "tee.png" |}.

Definition cap (price : jsval) : product :=
  {| p_id := "652f1c0e9b1e8a0012a4b002"; product_code := Some "B2";
     product_name := JStr "Cap"; product_price := price;
     product_imageurl := JStr "cap.png" |}.

Definition line (code size : string) : jsval :=
  JObj [("productCode", JStr code); ("size", JStr size)].

Definition address : jsval :=
  JObj [("city", JStr "Pune"); ("zip", JStr "411001")].

(** The same address with its two keys in the other order. *)
Definition address_swapped : jsval :=
  JObj [("zip", JStr "411001"); ("city", JStr "Pune")].

Definition catalog800 : list product := [tee (JNum (of_Z 800))].
Definition catalog500 : list product := [tee (JNum (of_Z 500))].

(** The prices [0.1] and [0.2]. *)
Definition catalog_cents : list product :=
  [tee (JNum (of_ratio 1 10)); cap (JNum (of_ratio 2 10))].

(** A catalog record with a negative price. *)
Definition catalog_negative : list product := [tee (JNum (of_Z (-5)))].

(** A catalog record whose stored price is [null]: Mongoose's [Number]
    cast keeps [null] when it reads the document. *)
Definition catalog_null : list product := [tee JNull].

(** A checkout summary written out, and the same summary with every field
    outside the hashed projection changed. *)
Definition tee_line (id imageUrl : string) : jsval :=
  JObj [("_id", JObjectId id); ("productCode", JStr "A1"); ("productName", JStr "Tee");
        ("price", JNum (of_Z 800)); ("imageUrl", JStr imageUrl); ("size", JStr "M")].

Definition summary : jsval :=
  JObj [("cart", JArr [tee_line "652f1c0e9b1e8a0012a4b001" "tee.png"]);
        ("address", address);
        ("pricing", pricing_json (price_order (of_Z 800)));
        ("orderDate", JDate now); ("status", JStr "pending")].



Definition digest_of (order : jsval) : string :=
  match generateOrderHash key order with Ok d => d | Throw _ => EmptyString end.

(** A [jwt.verify] for three tokens: a valid one, an expired one, and any
    other with a bad signature. *)
Definition verifier (token : string) : jwt_result :=
  if String.eqb token "good.token.sig" then JwtOk (JObj [("clientId", JStr "c42")])
  else if String.eqb token "old.token.sig" then JwtFail TokenExpiredError
  else JwtFail (JsonWebTokenError "invalid signature").

Definition empty_store : order_store := {| docs := []; next_id := 1; online := true |}.

(** The ISO form [YYYY-MM-DDTHH:mm:ss.sssZ] of a date. *)
Definition iso_shape (s : string) : bool :=
  let digit c := let n := nat_of_ascii c in Nat.leb 48 n && Nat.leb n 57 in
  Nat.eqb (String.length s) 24 &&
  forallb (fun '(i, c) =>
             if existsb (Nat.eqb i) [4; 7]%nat then Ascii.eqb c "-"%char
             else if Nat.eqb i 10 then Ascii.eqb c "T"%char
             else if existsb (Nat.eqb i) [13; 16]%nat then Ascii.eqb c ":"%char
             else if Nat.eqb i 19 then Ascii.eqb c "."%char
             else if Nat.eqb i 23 then Ascii.eqb c "Z"%char
             else digit c)
    (combine (seq 0 24) (list_ascii_of_string s)).

(** Runtime casts for the examples: [new Date(s)] read on strings already
    in ISO form (and refused on any other value), dates printed in that
    form, client [_id]s refused, [castNumber] accepting numbers only. *)
Definition casts : mongoose_casts :=
  {| new_date := fun v => match v with
                          | JStr s => if iso_shape s then Some s else None
                          | _ => None
                          end;
     date_toString := fun iso => iso;
     cast_objectid := fun _ => None;
     number_castable := fun v => match v with JNum _ => true | _ => false end |}.

Definition order_of (r : checkout_reply) : jsval :=
  match r with CheckoutOk o _ => o | _ => JUndefined end.

Definition hash_of (r : checkout_reply) : string :=
  match r with CheckoutOk _ h => h | _ => EmptyString end.

(** A stand-in for [validator.isEmail] that accepts any string with an
    "@": looser than the schema's pattern. *)
Definition loose_isEmail (v : string) : bool :=
  existsb (fun c => Ascii.eqb c "@"%char) (list_ascii_of_string v).

Definition subscribers : list email_doc :=
  [{| email := "ann@example.com"; subscriptionDate := now |}].

End Sample.

(* ================================================================== *)
(** * Properties *)

Import JsNum Json Server Edit Sample.
Local Open Scope string_scope.

(** ** Lemmas *)

Ltac break_in H :=
  repeat match type of H with
  | context [match ?x with _ => _ end] => let E := fresh "E" in destruct x eqn:E
  end.

Ltac break_goal :=
  repeat match goal with
  | |- context [match ?x with _ => _ end] => let E := fresh "E" in destruct x eqn:E
  end.

Lemma lookup_In_NoDup (k : string) (v : jsval) (ps : list (string * jsval)) :
  NoDup (map fst ps) -> In (k, v) ps -> lookup k ps = v.
Proof.
  induction ps as [| [k' x] rest IH]; simpl; intros Hnd Hin; [contradiction |].
  inversion Hnd as [| ? ? Hnotin Hnd']; subst.
  destruct Hin as [Heq | Hin].
  - inversion Heq; subst. rewrite String.eqb_refl. reflexivity.
  - destruct (String.eqb_spec k k') as [-> | Hne].
    + exfalso. apply Hnotin. apply (in_map fst) in Hin. exact Hin.
    + apply IH; assumption.
Qed.

Lemma lookup_not_In (k : string) (ps : list (string * jsval)) :
  ~ In k (map fst ps) -> lookup k ps = JUndefined.
Proof.
  induction ps as [| [k' x] rest IH]; simpl; intros Hn; [reflexivity |].
  destruct (String.eqb_spec k k') as [-> | Hne].
  - exfalso. apply Hn. left. reflexivity.
  - apply IH. intro Hin. apply Hn. right. exact Hin.
Qed.

(** Reading a property does not depend on the order of the properties of
    an object whose keys are distinct. *)
Lemma lookup_perm (k : string) (ps ps' : list (string * jsval)) :
  NoDup (map fst ps) -> Permutation ps ps' -> lookup k ps = lookup k ps'.
Proof.
  intros Hnd Hp.
  assert (Hnd' : NoDup (map fst ps')).
  { apply (Permutation_NoDup (Permutation_map fst Hp)). exact Hnd. }
  destruct (in_dec String.string_dec k (map fst ps)) as [Hin | Hnin].
  - apply in_map_iff in Hin. destruct Hin as [[k0 v] [Hk Hin]]. simpl in Hk. subst k0.
    rewrite (lookup_In_NoDup k v ps Hnd Hin).
    symmetry. apply lookup_In_NoDup; [exact Hnd' |].
    apply (Permutation_in _ Hp). exact Hin.
  - rewrite (lookup_not_In k ps Hnin). symmetry. apply lookup_not_In.
    intro Hin. apply Hnin.
    apply (Permutation_in _ (Permutation_sym (Permutation_map fst Hp))). exact Hin.
Qed.

Lemma project_item_ext (l l' : jsval) :
  (forall f, In f hashed_line_keys -> get l f = get l' f) ->
  project_item l = project_item l'.
Proof.
  intros H. unfold project_item.
  rewrite (H "productCode"), (H "productName"), (H "price"), (H "size");
    simpl; auto 6.
Qed.

Lemma map_res_ext_Forall2 {A B} (f : A -> res B) (R : A -> A -> Prop) (l l' : list A) :
  (forall x y, R x y -> f x = f y) -> Forall2 R l l' -> map_res f l = map_res f l'.
Proof.
  intros Hf H. induction H as [| x y l l' Hxy _ IH]; simpl; [reflexivity |].
  rewrite (Hf x y Hxy), IH. reflexivity.
Qed.

(** The digest input only reads the hashed projection. *)
Lemma orderString_same_projection (order order' : jsval) :
  same_projection order order' -> orderString order = orderString order'.
Proof.
  intros (ps & ps' & lines & lines' & -> & -> & Hc & Hc' & Ha & Hp & Hl).
  unfold orderString. simpl. rewrite Hc, Hc'. simpl.
  rewrite (map_res_ext_Forall2 project_item _ lines lines' project_item_ext Hl).
  rewrite Ha, Hp. reflexivity.
Qed.

Lemma generateOrderHash_same_projection (k : string) (order order' : jsval) :
  same_projection order order' ->
  generateOrderHash k order = generateOrderHash k order'.
Proof.
  intros H. unfold generateOrderHash. rewrite (orderString_same_projection _ _ H).
  reflexivity.
Qed.

Lemma verify_generate (k : string) (order : jsval) (d : string) :
  generateOrderHash k order = Ok d -> verifyOrderHash k order (JStr d) = Ok true.
Proof.
  intros H. unfold verifyOrderHash. rewrite H. simpl. rewrite String.eqb_refl.
  reflexivity.
Qed.

(** The shape of every successful checkout: the enhanced cart (not empty),
    the address as sent, the pricing computed from the enhanced cart, and
    the digest of exactly this summary. *)
Lemma checkout_ok_shape (k : string) (cat : list product) (now : string)
    (cart address order : jsval) (d : string) :
  checkout k cat now cart address = CheckoutOk order d ->
  exists items,
    items <> [] /\
    order = JObj [("cart", JArr items); ("address", address);
                  ("pricing", pricing_json (price_order (subtotal_of items)));
                  ("orderDate", JDate now); ("status", JStr "pending")] /\
    generateOrderHash k order = Ok d.
Proof.
  unfold checkout. intros H.
  destruct (negb (truthy cart) || negb (is_array cart) || _); [discriminate |].
  destruct (negb (truthy address) || negb (is_object_type address)); [discriminate |].
  destruct (checkout_try k cat now cart address) as [r |] eqn:E; [| discriminate].
  subst r. unfold checkout_try, bind in E. break_in E; try discriminate.
  injection E as <-. subst.
  eexists. split. 2: split. 2: reflexivity. 2: eassumption. discriminate.
Qed.

(** What [/api/save-order] does once its checks pass: it answers with the
    verdict of [verifyOrderHash]. *)
Lemma save_order_after_checks (k : string) (M : mongoose_casts) (now : string)
    (st : order_store) (order orderHash : jsval) :
  save_order_checks order orderHash = true ->
  save_order k M now st order orderHash =
  match verifyOrderHash k order orderHash with
  | Ok true =>
      match save M now st order with
      | Some (st', id) => (Reply 200 "Order saved successfully" (Some id), st')
      | None => (Reply 500 "Server error saving order" None, st)
      end
  | Ok false => (Reply 400 msg_tampered None, st)
  | Throw _ => (Reply 500 "Server error saving order" None, st)
  end.
Proof.
  intros H. unfold save_order_checks in H.
  destruct order as [| | | | | | ps | |]; simpl in H;
    repeat rewrite andb_false_r in H; try discriminate.
  repeat match goal with Hb : _ && _ = true |- _ => apply andb_prop in Hb as [? ?] end.
  unfold save_order, save_order_try. cbn -[save].
  repeat match goal with Hb : ?b = true |- _ => rewrite Hb; clear Hb end. cbn -[save].
  destruct (verifyOrderHash k (JObj ps) orderHash) as [[|] |]; try reflexivity.
  cbn -[save]. destruct (save M now st (JObj ps)) as [[st' id] |]; reflexivity.
Qed.

Lemma save_order_try_unchanged (k : string) (M : mongoose_casts) (now : string)
    (st st' : order_store) (order orderHash : jsval) (s : Z) (m : string) (oid : option Z) :
  save_order_try k M now st order orderHash = Ok (Reply s m oid, st') ->
  s = 200 \/ (st' = st /\ oid = None).
Proof.
  unfold save_order_try, bind. intros H. break_in H; try discriminate;
    injection H; intros; subst; auto.
Qed.


Lemma map_res_bind_Ok {A B C} (f : A -> res B) (g : B -> C) (l : list A) :
  map_res (fun x => let* c := f x in Ok (g c)) l = let* ys := map_res f l in Ok (map g ys).
Proof.
  induction l as [| x rest IH]; simpl; [reflexivity |].
  destruct (f x); simpl; [| reflexivity].
  rewrite IH. destruct (map_res f rest); reflexivity.
Qed.

Lemma map_res_Ok_In {A B} (f : A -> res B) (l : list A) (ys : list B) (x : A) :
  map_res f l = Ok ys -> In x l -> exists y, f x = Ok y.
Proof.
  revert ys. induction l as [| x' rest IH]; simpl; intros ys H Hin; [contradiction |].
  destruct (f x') as [y |] eqn:Ef; simpl in H; [| discriminate].
  destruct Hin as [<- | Hin]; [eauto |].
  destruct (map_res f rest) as [ys' |] eqn:Er; simpl in H; [| discriminate].
  eapply IH; eauto.
Qed.

(** [arr.map] throws as soon as the callback throws on one element. *)
Lemma map_res_Throw_In {A B} (f : A -> res B) (l : list A) (x : A) (e : js_error) :
  In x l -> f x = Throw e -> exists e', map_res f l = Throw e'.
Proof.
  induction l as [| x' rest IH]; simpl; intros Hin Hf; [contradiction |].
  destruct Hin as [<- | Hin].
  - rewrite Hf. simpl. eauto.
  - destruct (IH Hin Hf) as [e' He']. destruct (f x'); simpl; [rewrite He'; simpl |]; eauto.
Qed.

Lemma code_of_item_Ok (l : jsval) (c : string) :
  code_of_item l = Ok c -> exists ps c', l = JObj ps /\ lookup "productCode" ps = JStr c'.
Proof.
  unfold code_of_item. destruct l as [| | | | | | ps | |]; simpl; try discriminate.
  destruct (lookup "productCode" ps) eqn:E; simpl; try discriminate. intros _. eauto.
Qed.

Lemma enhance_item_obj (products : list product) (ps : list (string * jsval)) :
  enhance_item products (JObj ps) = Ok (line_kept products (JObj ps)).
Proof.
  unfold line_kept. destruct (enhance_item products (JObj ps)) eqn:E; [reflexivity |].
  revert E. unfold enhance_item. simpl. break_goal; simpl; discriminate.
Qed.

Lemma line_kept_obj (products : list product) (l v : jsval) :
  line_kept products l = Some v -> exists ps, v = JObj ps.
Proof.
  unfold line_kept, enhance_item.
  destruct (get l "productCode"); simpl; [| discriminate].
  destruct (find _ products); simpl; [| discriminate].
  destruct (get l "size"); simpl; [| discriminate].
  destruct (String.eqb _ _); [discriminate |]. intros H. injection H as <-. eauto.
Qed.

Lemma js_map_enhance (products : list product) (lines : list jsval) :
  Forall (fun l => exists ps, l = JObj ps) lines ->
  map_res (fun item =>
                         let* r := enhance_item products item in
                         Ok (match r with Some v => v | None => JNull end)) lines
  = Ok (map (fun l => match line_kept products l with Some v => v | None => JNull end) lines).
Proof.
  induction 1 as [| l rest [ps ->] _ IH]; simpl; [reflexivity |].
  rewrite enhance_item_obj. simpl. rewrite IH. reflexivity.
Qed.

Lemma filter_truthy_kept (products : list product) (lines : list jsval) :
  filter truthy (map (fun l => match line_kept products l with Some v => v | None => JNull end)
                   lines)
  = filter_some (map (line_kept products) lines).
Proof.
  induction lines as [| l rest IH]; simpl; [reflexivity |].
  destruct (line_kept products l) as [v |] eqn:E; simpl; [| exact IH].
  destruct (line_kept_obj _ _ _ E) as [ps ->]. simpl. rewrite IH. reflexivity.
Qed.



(** The checkout of a non-empty cart whose product codes all pass the check. *)
Lemma checkout_valid_codes (k : string) (cat : list product) (now : string)
    (lines : list jsval) (address : jsval) (codes : list string) :
  lines <> [] -> truthy address = true -> is_object_type address = true ->
  map_res code_of_item lines = Ok codes ->
  checkout k cat now (JArr lines) address =
  match find_products cat codes with
  | [] => CheckoutErr 404 "No products found in database"
  | products =>
      match filter_some (map (line_kept products) lines) with
      | [] => CheckoutErr 400 "No valid items in cart"
      | kept =>
          match generateOrderHash k (order_summary now address kept) with
          | Ok d => CheckoutOk (order_summary now address kept) d
          | Throw _ => CheckoutErr 500 "Server error processing order"
          end
      end
  end.
Proof.
  intros Hne Ha Ho Hc.
  assert (Hobj : Forall (fun l => exists ps, l = JObj ps) lines).
  { apply Forall_forall. intros l Hin.
    destruct (map_res_Ok_In _ _ _ _ Hc Hin) as [c Hl].
    destruct (code_of_item_Ok _ _ Hl) as (ps & _ & -> & _). eauto. }
  assert (Hpre : (negb (truthy (JArr lines)) || negb (is_array (JArr lines))
                  || match JArr lines with JArr [] => true | _ => false end) = false).
  { destruct lines; [contradiction | reflexivity]. }
  unfold checkout. rewrite Hpre, Ha, Ho. simpl.
  unfold checkout_try. simpl. rewrite map_res_bind_Ok, Hc. simpl.
  rewrite map_map. simpl. rewrite map_id.
  destruct (find_products cat codes) as [| p0 ps0] eqn:Hf; [reflexivity |].
  rewrite (js_map_enhance _ _ Hobj). simpl. rewrite filter_truthy_kept.
  destruct (filter_some (map (line_kept (p0 :: ps0)) lines)) as [| i0 is0] eqn:Hk;
    [reflexivity |].
  fold (order_summary now address (i0 :: is0)).
  destruct (generateOrderHash k (order_summary now address (i0 :: is0))); reflexivity.
Qed.


(** *** Serialization contexts *)

Lemma sapp_assoc (a b c : string) : ((a ++ b) ++ c = a ++ (b ++ c))%string.
Proof. induction a as [| ch a IH]; simpl; [reflexivity | rewrite IH; reflexivity]. Qed.

Lemma sapp_nil_r (a : string) : (a ++ EmptyString = a)%string.
Proof. induction a as [| ch a IH]; simpl; [reflexivity | rewrite IH; reflexivity]. Qed.

Lemma list_ascii_of_string_app (a b : string) :
  list_ascii_of_string (a ++ b) = (list_ascii_of_string a ++ list_ascii_of_string b)%list.
Proof. induction a as [| ch a IH]; simpl; [reflexivity | rewrite IH; reflexivity]. Qed.

Lemma sapp_cancel_l (L a b : string) : (L ++ a = L ++ b)%string -> a = b.
Proof. induction L as [| ch L IH]; simpl; [auto | intros H; injection H; auto]. Qed.

Lemma sapp_cancel_r (a b R : string) : (a ++ R = b ++ R)%string -> a = b.
Proof.
  intros H. apply (f_equal list_ascii_of_string) in H.
  rewrite !list_ascii_of_string_app in H. apply app_inv_tail in H.
  rewrite <- (string_of_list_ascii_of_string a), <- (string_of_list_ascii_of_string b), H.
  reflexivity.
Qed.

Lemma join_cons (sep x : string) (rest : list string) :
  rest <> [] -> join sep (x :: rest) = (x ++ sep ++ join sep rest)%string.
Proof. destruct rest; [contradiction | reflexivity]. Qed.

(** An element of a joined list sits between a fixed prefix and suffix. *)
Lemma join_ctx (sep : string) (xs ys : list string) :
  exists L R, forall m, join sep (xs ++ m :: ys) = (L ++ m ++ R)%string.
Proof.
  induction xs as [| x xs [L [R IH]]].
  - destruct ys as [| y ys].
    + exists EmptyString, EmptyString. intros m. simpl. rewrite sapp_nil_r. reflexivity.
    + exists EmptyString, (sep ++ join sep (y :: ys))%string. intros m. reflexivity.
  - exists (x ++ sep ++ L)%string, R. intros m. simpl app.
    rewrite join_cons by (destruct xs; discriminate).
    rewrite IH, !sapp_assoc. reflexivity.
Qed.

Lemma ser_JObj (qs : list (string * jsval)) :
  ser (JObj qs) =
  Some ("{" ++ join ","
          (flat_map (fun '(k, x) =>
                       match ser x with
                       | Some s => [(quote k ++ ":" ++ s)%string]
                       | None => []
                       end) qs) ++ "}")%string.
Proof. reflexivity. Qed.

Lemma ser_JArr (l : list jsval) :
  ser (JArr l) =
  Some ("[" ++ join "," (map (fun x => match ser x with Some s => s | None => "null" end) l)
        ++ "]")%string.
Proof. reflexivity. Qed.

Lemma split_first_key (f : string) (ps : list (string * jsval)) :
  In f (map fst ps) ->
  exists pre y post, ps = (pre ++ (f, y) :: post)%list /\ ~ In f (map fst pre).
Proof.
  induction ps as [| [k x] rest IH]; simpl; [contradiction |]. intros Hin.
  destruct (String.eqb_spec k f) as [-> | Hne].
  - exists [], x, rest. split; [reflexivity | intros []].
  - destruct Hin as [Heq | Hin]; [contradiction |].
    destruct (IH Hin) as (pre & y & post & -> & Hn).
    exists ((k, x) :: pre), y, post. split; [reflexivity |].
    simpl. intros [Heq | H]; [contradiction | exact (Hn H)].
Qed.

Lemma set_prop_split (f : string) (w y : jsval) (pre post : list (string * jsval)) :
  ~ In f (map fst pre) -> set_prop f w (pre ++ (f, y) :: post) = (pre ++ (f, w) :: post)%list.
Proof.
  induction pre as [| [k x] pre IH]; simpl; intros Hn.
  - rewrite String.eqb_refl. reflexivity.
  - destruct (String.eqb_spec f k) as [-> | Hne]; [exfalso; apply Hn; left; reflexivity |].
    rewrite IH; [reflexivity |]. intros H. apply Hn. right. exact H.
Qed.

Lemma set_prop_lookup (k : string) (ps : list (string * jsval)) :
  set_prop k (lookup k ps) ps = ps.
Proof.
  induction ps as [| [k' x] rest IH]; simpl; [reflexivity |].
  destruct (String.eqb k k'); [reflexivity | rewrite IH; reflexivity].
Qed.

Lemma lookup_set_prop_same (k : string) (w : jsval) (ps : list (string * jsval)) :
  In k (map fst ps) -> lookup k (set_prop k w ps) = w.
Proof.
  induction ps as [| [k' x] rest IH]; simpl; [contradiction |]. intros Hin.
  destruct (String.eqb_spec k k') as [-> | Hne]; simpl.
  - rewrite String.eqb_refl. reflexivity.
  - apply String.eqb_neq in Hne as Hb. rewrite Hb. apply IH.
    destruct Hin as [-> | Hin]; [contradiction | exact Hin].
Qed.

Lemma lookup_set_prop_other (k k' : string) (w : jsval) (ps : list (string * jsval)) :
  k' <> k -> lookup k' (set_prop k w ps) = lookup k' ps.
Proof.
  intros Hne. induction ps as [| [k0 x] rest IH]; simpl; [reflexivity |].
  destruct (String.eqb_spec k k0) as [-> | Hne0]; simpl.
  - apply String.eqb_neq in Hne as Hb. rewrite Hb. reflexivity.
  - rewrite IH. reflexivity.
Qed.

Lemma lookup_defined_In (k : string) (ps : list (string * jsval)) :
  lookup k ps <> JUndefined -> In k (map fst ps).
Proof.
  intros H. destruct (in_dec String.string_dec k (map fst ps)) as [Hin | Hn]; [exact Hin |].
  exfalso. exact (H (lookup_not_In k ps Hn)).
Qed.

Lemma existsb_key_In (f : string) (keys : list string) :
  existsb (String.eqb f) keys = true -> In f keys.
Proof.
  intros H. apply existsb_exists in H as [k [Hin Hk]].
  apply String.eqb_eq in Hk. subst k. exact Hin.
Qed.

Lemma set_nth_split {A} (i : nat) (w : A) (l : list A) :
  (i < List.length l)%nat -> set_nth i w l = (firstn i l ++ w :: skipn (S i) l)%list.
Proof.
  revert i. induction l as [| x l IH]; intros [| i] Hi; simpl in *; try lia; [reflexivity |].
  rewrite IH by lia. reflexivity.
Qed.

Lemma set_nth_same {A} (i : nat) (y : A) (l : list A) :
  nth_error l i = Some y -> set_nth i y l = l.
Proof.
  revert i. induction l as [| x l IH]; intros [| i] H; simpl in *; try discriminate.
  - injection H as ->. reflexivity.
  - rewrite (IH i H). reflexivity.
Qed.

Lemma map_res_set_nth {A B} (g : A -> res B) (l : list A) (ys : list B) (i : nat)
    (w : A) (y : B) :
  map_res g l = Ok ys -> g w = Ok y -> map_res g (set_nth i w l) = Ok (set_nth i y ys).
Proof.
  revert ys i. induction l as [| x l IH]; intros ys i H Hw; simpl in H.
  - injection H as <-. destruct i; reflexivity.
  - destruct (g x) as [b |] eqn:Ex; simpl in H; [| discriminate].
    destruct (map_res g l) as [bs |] eqn:El; simpl in H; [| discriminate].
    injection H as <-. destruct i as [| i]; simpl.
    + rewrite Hw, El. reflexivity.
    + rewrite Ex. simpl. rewrite (IH bs i eq_refl Hw). reflexivity.
Qed.

Lemma map_res_nth_error {A B} (g : A -> res B) (l : list A) (ys : list B) (i : nat) (a : A) :
  map_res g l = Ok ys -> nth_error l i = Some a ->
  exists b, g a = Ok b /\ nth_error ys i = Some b.
Proof.
  revert ys i. induction l as [| x l IH]; intros ys i H Hi; [destruct i; discriminate |].
  simpl in H. destruct (g x) as [b |] eqn:Ex; simpl in H; [| discriminate].
  destruct (map_res g l) as [bs |] eqn:El; simpl in H; [| discriminate].
  injection H as <-. destruct i as [| i]; simpl in Hi.
  - injection Hi as ->. eauto.
  - exact (IH bs i eq_refl Hi).
Qed.

Lemma ser_ctx_compose (F G : jsval -> jsval) :
  ser_ctx F -> ser_ctx G -> ser_ctx (fun w => F (G w)).
Proof.
  intros (L1 & R1 & HF) (L2 & R2 & HG).
  exists (L1 ++ L2)%string, (R2 ++ R1)%string. intros w sw Hw.
  rewrite (HF _ _ (HG w sw Hw)), !sapp_assoc. reflexivity.
Qed.

Lemma ser_ctx_obj (ps : list (string * jsval)) (f : string) :
  In f (map fst ps) -> ser_ctx (fun w => JObj (set_prop f w ps)).
Proof.
  intros Hin. destruct (split_first_key f ps Hin) as (pre & y & post & -> & Hn).
  set (g := fun '(k, x) =>
              match ser x with
              | Some s => [(quote k ++ ":" ++ s)%string]
              | None => []
              end : list string).
  destruct (join_ctx "," (flat_map g pre) (flat_map g post)) as (L & R & HJ).
  exists ("{" ++ L ++ quote f ++ ":")%string, (R ++ "}")%string. intros w sw Hw.
  rewrite (set_prop_split f w y pre post Hn), ser_JObj. fold g.
  rewrite flat_map_app. simpl flat_map at 2. unfold g at 2. rewrite Hw. simpl app.
  fold g. rewrite HJ. unfold quote. repeat progress (simpl; rewrite ?sapp_assoc). reflexivity.
Qed.

Lemma ser_ctx_arr (items : list jsval) (i : nat) :
  (i < List.length items)%nat -> ser_ctx (fun w => JArr (set_nth i w items)).
Proof.
  intros Hi. set (g := fun x => match ser x with Some s => s | None => "null" end).
  destruct (join_ctx "," (map g (firstn i items)) (map g (skipn (S i) items)))
    as (L & R & HJ).
  exists ("[" ++ L)%string, (R ++ "]")%string. intros w sw Hw.
  rewrite (set_nth_split i w items Hi), ser_JArr. fold g.
  rewrite map_app. simpl map at 2. replace (g w) with sw by (unfold g; rewrite Hw; reflexivity).
  rewrite HJ, !sapp_assoc. reflexivity.
Qed.

Lemma orderString_JObj (ps : list (string * jsval)) (lines items : list jsval) :
  lookup "cart" ps = JArr lines -> map_res project_item lines = Ok items ->
  orderString (JObj ps) =
  Ok (stringify (JObj [("cart", JArr items); ("address", lookup "address" ps);
                       ("pricing", lookup "pricing" ps)])).
Proof. intros Hc Hi. unfold orderString. simpl. rewrite Hc. simpl. rewrite Hi. reflexivity. Qed.

Lemma orderString_Ok_inv (ps : list (string * jsval)) (o : string) :
  orderString (JObj ps) = Ok o ->
  exists lines items, lookup "cart" ps = JArr lines /\ map_res project_item lines = Ok items.
Proof.
  unfold orderString. simpl. destruct (lookup "cart" ps) as [| | | | | lines | | |];
    simpl; try discriminate.
  destruct (map_res project_item lines) as [items |] eqn:Ei; simpl; [eauto | discriminate].
Qed.

Lemma project_item_set (lp : list (string * jsval)) (f : string) (v : jsval) :
  In f hashed_line_keys -> In f (map fst lp) ->
  project_item (JObj (set_prop f v lp)) =
  Ok (JObj (set_prop f v [("productCode", lookup "productCode" lp);
                          ("productName", lookup "productName" lp);
                          ("price", lookup "price" lp); ("size", lookup "size" lp)])).
Proof.
  intros Hf Hin. unfold project_item. simpl.
  destruct Hf as [<- | [<- | [<- | [<- | []]]]]; simpl;
    rewrite lookup_set_prop_same by exact Hin;
    rewrite !lookup_set_prop_other by discriminate; reflexivity.
Qed.

(** Editing one field of the hashed projection changes the digest input only
    at the place where that field is serialized. *)
Lemma mutate_ctx (order : jsval) (o : string) (fld : hashed_field) (x v : jsval) :
  orderString order = Ok o -> field_value fld order = Some x ->
  exists F, ser_ctx F /\ orderString order = Ok (stringify (F x)) /\
            orderString (mutate fld v order) = Ok (stringify (F v)).
Proof.
  intros Ho Hf. destruct order as [| | | | | | ps | |]; try discriminate Hf.
  destruct (orderString_Ok_inv _ _ Ho) as (lines & items & Hc & Hi).
  assert (Hkeys : forall k, lookup k ps <> JUndefined -> In k (map fst ps))
    by (intros; apply lookup_defined_In; assumption).
  destruct fld as [i f | f | f]; unfold field_value in Hf; cbv beta iota zeta in Hf.
  - destruct (existsb (String.eqb f) hashed_line_keys) eqn:Ek; [| discriminate].
    apply existsb_key_In in Ek. rewrite Hc in Hf.
    destruct (nth_error lines i) as [line |] eqn:En; [| discriminate].
    destruct line as [| | | | | | lp | |]; try discriminate.
    destruct (existsb (String.eqb f) (map fst lp)) eqn:Ef; [| discriminate].
    apply existsb_key_In in Ef. injection Hf as <-.
    destruct (map_res_nth_error _ _ _ _ _ Hi En) as [b [Hb Hbn]].
    simpl in Hb. injection Hb as <-.
    set (P := [("productCode", lookup "productCode" lp);
               ("productName", lookup "productName" lp);
               ("price", lookup "price" lp); ("size", lookup "size" lp)]) in *.
    set (qs := [("cart", JArr items); ("address", lookup "address" ps);
                ("pricing", lookup "pricing" ps)]).
    exists (fun w => JObj (set_prop "cart" (JArr (set_nth i (JObj (set_prop f w P)) items)) qs)).
    split; [| split].
    + apply (ser_ctx_compose (fun w => JObj (set_prop "cart" w qs))
               (fun w => JArr (set_nth i (JObj (set_prop f w P)) items))).
      * apply ser_ctx_obj. left. reflexivity.
      * apply (ser_ctx_compose (fun w => JArr (set_nth i w items))
                 (fun w => JObj (set_prop f w P))).
        -- apply ser_ctx_arr. apply nth_error_Some. rewrite Hbn. discriminate.
        -- apply ser_ctx_obj. exact Ek.
    + rewrite (orderString_JObj ps lines items Hc Hi).
      replace (lookup f lp) with (lookup f P)
        by (destruct Ek as [<- | [<- | [<- | [<- | []]]]]; reflexivity).
      rewrite set_prop_lookup, (set_nth_same i _ items Hbn). reflexivity.
    + simpl. rewrite Hc. rewrite (nth_error_nth _ _ JUndefined En). simpl.
      assert (Hcart : In "cart" (map fst ps)) by (apply Hkeys; rewrite Hc; discriminate).
      rewrite (orderString_JObj _ (set_nth i (JObj (set_prop f v lp)) lines)
                 (set_nth i (JObj (set_prop f v P)) items)).
      * rewrite !lookup_set_prop_other by discriminate. reflexivity.
      * apply lookup_set_prop_same. exact Hcart.
      * apply (map_res_set_nth _ _ _ _ _ _ Hi). apply project_item_set; assumption.
  - destruct (lookup "address" ps) as [| | | | | | aps | |] eqn:Ea; try discriminate.
    destruct (existsb (String.eqb f) (map fst aps)) eqn:Ef; [| discriminate].
    apply existsb_key_In in Ef. injection Hf as <-.
    assert (Hk : In "address" (map fst ps)) by (apply Hkeys; rewrite Ea; discriminate).
    set (qs := [("cart", JArr items); ("address", JObj aps);
                ("pricing", lookup "pricing" ps)]).
    exists (fun w => JObj (set_prop "address" (JObj (set_prop f w aps)) qs)).
    split; [| split].
    + apply (ser_ctx_compose (fun w => JObj (set_prop "address" w qs))
               (fun w => JObj (set_prop f w aps))).
      * apply ser_ctx_obj. right. left. reflexivity.
      * apply ser_ctx_obj. exact Ef.
    + rewrite (orderString_JObj ps lines items Hc Hi), set_prop_lookup, Ea. reflexivity.
    + simpl. rewrite Ea. simpl.
      rewrite (orderString_JObj _ lines items).
      * rewrite lookup_set_prop_same by exact Hk.
        rewrite lookup_set_prop_other by discriminate. reflexivity.
      * rewrite lookup_set_prop_other by discriminate. exact Hc.
      * exact Hi.
  - destruct (lookup "pricing" ps) as [| | | | | | pps | |] eqn:Ep; try discriminate.
    destruct (existsb (String.eqb f) (map fst pps)) eqn:Ef; [| discriminate].
    apply existsb_key_In in Ef. injection Hf as <-.
    assert (Hk : In "pricing" (map fst ps)) by (apply Hkeys; rewrite Ep; discriminate).
    set (qs := [("cart", JArr items); ("address", lookup "address" ps);
                ("pricing", JObj pps)]).
    exists (fun w => JObj (set_prop "pricing" (JObj (set_prop f w pps)) qs)).
    split; [| split].
    + apply (ser_ctx_compose (fun w => JObj (set_prop "pricing" w qs))
               (fun w => JObj (set_prop f w pps))).
      * apply ser_ctx_obj. right. right. left. reflexivity.
      * apply ser_ctx_obj. exact Ef.
    + rewrite (orderString_JObj ps lines items Hc Hi), set_prop_lookup, Ep. reflexivity.
    + simpl. rewrite Ep. simpl.
      rewrite (orderString_JObj _ lines items).
      * rewrite lookup_set_prop_same by exact Hk.
        rewrite lookup_set_prop_other by discriminate. reflexivity.
      * rewrite lookup_set_prop_other by discriminate. exact Hc.
      * exact Hi.
Qed.

(** ** Claims *)

(** Claim C1 (amended): the digest does not depend on the key order inside
    the cart lines (nor on the key order of the order object itself): each
    line is rebuilt as [{productCode, productName, price, size}], and every
    read goes through a property lookup.  Address and pricing objects are
    written in their own property order (see
    [C1_address_key_order_changes_digest]). *)
Theorem C1_cart_line_key_order_invariant (k : string) (ps ps' : list (string * jsval))
    (lines lines' : list jsval) :
  lookup "cart" ps = JArr lines ->
  lookup "cart" ps' = JArr lines' ->
  lookup "address" ps = lookup "address" ps' ->
  lookup "pricing" ps = lookup "pricing" ps' ->
  Forall2 (fun l l' => l = l' \/
             exists lp lp', l = JObj lp /\ l' = JObj lp' /\
                            NoDup (map fst lp) /\ Permutation lp lp') lines lines' ->
  generateOrderHash k (JObj ps) = generateOrderHash k (JObj ps').
Proof.
  intros Hc Hc' Ha Hp Hl. apply generateOrderHash_same_projection.
  exists ps, ps', lines, lines'. repeat split; try assumption.
  eapply Forall2_impl; [| exact Hl].
  intros l l' [-> | (lp & lp' & -> & -> & Hnd & Hperm)] f _; [reflexivity |].
  simpl. rewrite (lookup_perm f lp lp' Hnd Hperm). reflexivity.
Qed.

Lemma C1_cart_line_key_order_invariant_witness :
  generateOrderHash key
    (JObj [("cart", JArr [JObj [("size", JStr "M"); ("productCode", JStr "A1")]]);
           ("address", address); ("pricing", JObj [])])
  = generateOrderHash key
    (JObj [("pricing", JObj []); ("address", address);
           ("cart", JArr [JObj [("productCode", JStr "A1"); ("size", JStr "M")]])]).
Proof.
  apply (C1_cart_line_key_order_invariant key _ _
           [JObj [("size", JStr "M"); ("productCode", JStr "A1")]]
           [JObj [("productCode", JStr "A1"); ("size", JStr "M")]]);
    try reflexivity.
  constructor; [| constructor]. right.
  exists [("size", JStr "M"); ("productCode", JStr "A1")],
         [("productCode", JStr "A1"); ("size", JStr "M")].
  split; [reflexivity | split; [reflexivity | split]].
  - constructor; [simpl; intros [H | []]; discriminate |].
    constructor; [intros [] | constructor].
  - apply perm_swap.
Defined.

(** Claim C2: a digest verifies against the summary it was computed from;
    in particular every summary returned by checkout verifies against the
    digest returned with it. *)
Theorem C2_hash_verify_roundtrip (k : string) :
  (forall order d, generateOrderHash k order = Ok d ->
                   verifyOrderHash k order (JStr d) = Ok true) /\
  (forall cat now cart address order d,
     checkout k cat now cart address = CheckoutOk order d ->
     verifyOrderHash k order (JStr d) = Ok true).
Proof.
  split.
  - exact (verify_generate k).
  - intros cat now' cart addr order d H.
    destruct (checkout_ok_shape _ _ _ _ _ _ _ H) as (items & _ & _ & Hg).
    exact (verify_generate k order d Hg).
Qed.

Lemma C2_hash_verify_roundtrip_witness :
  verifyOrderHash key summary (JStr (digest_of summary)) = Ok true /\
  verifyOrderHash key
    (order_of (checkout key catalog800 now (JArr [line "A1" "M"]) address))
    (JStr (hash_of (checkout key catalog800 now (JArr [line "A1" "M"]) address)))
  = Ok true.
Proof.
  split.
  - apply (proj1 (C2_hash_verify_roundtrip key)). vm_compute. reflexivity.
  - apply (proj2 (C2_hash_verify_roundtrip key) catalog800 now (JArr [line "A1" "M"]) address).
    vm_compute. reflexivity.
Defined.

(** Claim C3 (amended): after a field of the hashed projection (a cart
    line's [productCode], [productName], [price] or [size], an address field,
    a pricing field) is changed from [x] to [v], both written as JSON, the
    digest input of the changed summary is that of [S] with the JSON text of
    the field replaced in place.  So verification against [d] succeeds when
    that text is unchanged, and when it changes it succeeds only if
    HMAC-SHA256 gives the same digest for two different inputs. *)
Theorem C3_tamper_detection_by_serialization (k : string) (order : jsval) (d : string)
    (fld : hashed_field) (x v : jsval) (s s' : string) :
  generateOrderHash k order = Ok d ->
  field_value fld order = Some x -> ser x = Some s -> ser v = Some s' ->
  exists L R,
    orderString order = Ok (L ++ s ++ R) /\
    orderString (mutate fld v order) = Ok (L ++ s' ++ R) /\
    d = Sha256.hmac_sha256_hex k (L ++ s ++ R) /\
    verifyOrderHash k (mutate fld v order) (JStr d)
      = Ok (String.eqb (Sha256.hmac_sha256_hex k (L ++ s' ++ R)) d) /\
    (s' = s -> verifyOrderHash k (mutate fld v order) (JStr d) = Ok true) /\
    (s' <> s -> L ++ s' ++ R <> L ++ s ++ R).
Proof.
  intros Hg Hf Hx Hv. unfold generateOrderHash in Hg.
  destruct (orderString order) as [o |] eqn:Eo; simpl in Hg; [| discriminate].
  injection Hg as Hd.
  destruct (mutate_ctx order o fld x v Eo Hf) as (F & (L & R & HF) & Ho & Ho').
  assert (HS : orderString order = Ok (L ++ s ++ R)).
  { rewrite Ho. unfold stringify. rewrite (HF x s Hx). reflexivity. }
  assert (HS' : orderString (mutate fld v order) = Ok (L ++ s' ++ R)).
  { rewrite Ho'. unfold stringify. rewrite (HF v s' Hv). reflexivity. }
  rewrite Eo in HS. injection HS as ->.
  assert (Hver : verifyOrderHash k (mutate fld v order) (JStr d)
                 = Ok (String.eqb (Sha256.hmac_sha256_hex k (L ++ s' ++ R)) d)).
  { unfold verifyOrderHash, generateOrderHash. rewrite HS'. reflexivity. }
  exists L, R. split; [reflexivity |]. split; [exact HS' |]. split; [symmetry; exact Hd |].
  split; [exact Hver |]. split.
  - intros ->. rewrite Hver, <- Hd, String.eqb_refl. reflexivity.
  - intros Hne Heq. apply Hne.
    apply sapp_cancel_r with R. apply sapp_cancel_l with L. exact Heq.
Qed.

Lemma C3_tamper_detection_by_serialization_witness :
  let S' := mutate (AddressField "city") (JStr "Mumbai") summary in
  exists L R,
    orderString summary = Ok (L ++ quote "Pune" ++ R) /\
    orderString S' = Ok (L ++ quote "Mumbai" ++ R) /\
    digest_of summary = Sha256.hmac_sha256_hex key (L ++ quote "Pune" ++ R) /\
    verifyOrderHash key S' (JStr (digest_of summary))
      = Ok (String.eqb (Sha256.hmac_sha256_hex key (L ++ quote "Mumbai" ++ R))
                       (digest_of summary)) /\
    (quote "Mumbai" = quote "Pune" ->
     verifyOrderHash key S' (JStr (digest_of summary)) = Ok true) /\
    (quote "Mumbai" <> quote "Pune" ->
     L ++ quote "Mumbai" ++ R <> L ++ quote "Pune" ++ R).
Proof.
  apply (C3_tamper_detection_by_serialization key summary (digest_of summary)
           (AddressField "city") (JStr "Pune") (JStr "Mumbai"));
    [vm_compute; reflexivity | reflexivity | reflexivity | reflexivity].
Defined.

(** Claim C4: the pricing of every accepted cart has
    [discount = round(subtotal * 0.1, 2)], [delivery = 0] when
    [subtotal > 700] and [150] otherwise, and
    [total = round(subtotal + delivery - discount, 2)], where [round(x, 2)]
    is the source's [parseFloat(x.toFixed(2))] and the arithmetic is
    JavaScript's. *)
Theorem C4_pricing_invariant (k : string) (cat : list product) (now : string)
    (cart address order : jsval) (d : string) :
  checkout k cat now cart address = CheckoutOk order d ->
  exists ps p,
    order = JObj ps /\ lookup "pricing" ps = pricing_json p /\
    discount p = round2 (mul (subtotal p) lit_0_1) /\
    delivery p = (if ltb lit_700 (subtotal p) then zero else lit_150) /\
    total p = round2 (sub (add (subtotal p) (delivery p)) (discount p)).
Proof.
  intros H. destruct (checkout_ok_shape _ _ _ _ _ _ _ H) as (items & _ & -> & _).
  eexists _, (price_order (subtotal_of items)).
  repeat split; reflexivity.
Qed.

(** The two worked examples of the spec: price 800 gives 800 / 80 / 0 / 720,
    price 500 gives 500 / 50 / 150 / 600. *)
Example checkout_example_800 :
  option_map (fun p => match p with
                       | JObj ps => map (fun kv => match snd kv with
                                                   | JNum n => toString n
                                                   | _ => EmptyString end) ps
                       | _ => [] end)
    (pricing_of (checkout key catalog800 now (JArr [line "A1" "M"]) address))
  = Some ["800"; "80"; "0"; "720"].
Proof. vm_compute. reflexivity. Qed.

Example checkout_example_500 :
  option_map (fun p => match p with
                       | JObj ps => map (fun kv => match snd kv with
                                                   | JNum n => toString n
                                                   | _ => EmptyString end) ps
                       | _ => [] end)
    (pricing_of (checkout key catalog500 now (JArr [line "A1" "M"]) address))
  = Some ["500"; "50"; "150"; "600"].
Proof. vm_compute. reflexivity. Qed.

Lemma C4_pricing_invariant_witness :
  exists ps p,
    order_of (checkout key catalog800 now (JArr [line "A1" "M"]) address) = JObj ps /\
    lookup "pricing" ps = pricing_json p /\
    discount p = round2 (mul (subtotal p) lit_0_1) /\
    delivery p = (if ltb lit_700 (subtotal p) then zero else lit_150) /\
    total p = round2 (sub (add (subtotal p) (delivery p)) (discount p)).
Proof.
  apply (C4_pricing_invariant key catalog800 now (JArr [line "A1" "M"]) address _
           (hash_of (checkout key catalog800 now (JArr [line "A1" "M"]) address))).
  vm_compute. reflexivity.
Defined.

(** Claim C5 (amended): [discount] and [total] are outputs of the 2-decimal
    rounding [parseFloat(x.toFixed(2))], [delivery] is exactly 0 or 150, and
    [subtotal] is the unrounded floating-point sum of the line prices. *)
Theorem C5_pricing_rounding (k : string) (cat : list product) (now : string)
    (cart address order : jsval) (d : string) :
  checkout k cat now cart address = CheckoutOk order d ->
  exists ps items p,
    order = JObj ps /\ lookup "cart" ps = JArr items /\
    lookup "pricing" ps = pricing_json p /\
    subtotal p = subtotal_of items /\
    (exists x, discount p = round2 x) /\
    (exists y, total p = round2 y) /\
    (delivery p = zero \/ delivery p = lit_150).
Proof.
  intros H. destruct (checkout_ok_shape _ _ _ _ _ _ _ H) as (items & _ & -> & _).
  eexists _, items, (price_order (subtotal_of items)).
  split; [reflexivity | split; [reflexivity | split; [reflexivity | split; [reflexivity |]]]].
  split; [eexists; reflexivity | split; [eexists; reflexivity |]].
  simpl. destruct (ltb lit_700 (subtotal_of items)); [left | right]; reflexivity.
Qed.

Lemma C5_pricing_rounding_witness :
  exists ps items p,
    order_of (checkout key catalog_cents now (JArr [line "A1" "M"; line "B2" "L"]) address)
      = JObj ps /\ lookup "cart" ps = JArr items /\
    lookup "pricing" ps = pricing_json p /\
    subtotal p = subtotal_of items /\
    (exists x, discount p = round2 x) /\
    (exists y, total p = round2 y) /\
    (delivery p = zero \/ delivery p = lit_150).
Proof.
  apply (C5_pricing_rounding key catalog_cents now (JArr [line "A1" "M"; line "B2" "L"])
           address _
           (hash_of (checkout key catalog_cents now (JArr [line "A1" "M"; line "B2" "L"])
                       address))).
  vm_compute. reflexivity.
Defined.



(** Claim C7 (code bug): a cart line whose [productCode] is not a string, or
    is blank after trimming, makes the [productCodes] callback throw; the
    handler's generic [catch] answers 500 ["Server error processing order"]
    (Internal), not a client error. *)
Theorem C7_blank_code_is_server_error (k : string) (cat : list product) (now : string)
    (lines : list jsval) (address l v : jsval) :
  truthy address = true -> is_object_type address = true ->
  In l lines -> get l "productCode" = Ok v ->
  match v with JStr c => trim c = EmptyString | _ => True end ->
  checkout k cat now (JArr lines) address = CheckoutErr 500 "Server error processing order".
Proof.
  intros Ha Ho Hin Hg Hv.
  assert (Hl : exists e, code_of_item l = Throw e).
  { unfold code_of_item. rewrite Hg. simpl.
    destruct v; try (eexists; reflexivity).
    rewrite Hv. simpl. eexists; reflexivity. }
  destruct Hl as [e He].
  destruct (map_res_Throw_In _ _ _ _ Hin He) as [e' He'].
  assert (Hpre : (negb (truthy (JArr lines)) || negb (is_array (JArr lines))
                  || match JArr lines with JArr [] => true | _ => false end) = false).
  { destruct lines; [contradiction | reflexivity]. }
  unfold checkout. rewrite Hpre, Ha, Ho. simpl.
  unfold checkout_try. simpl. rewrite map_res_bind_Ok, He'. reflexivity.
Qed.

Lemma C7_blank_code_is_server_error_witness :
  checkout key catalog800 now (JArr [line "A1" "M"; line "   " "M"]) address
  = CheckoutErr 500 "Server error processing order".
Proof.
  apply (C7_blank_code_is_server_error key catalog800 now _ address (line "   " "M")
           (JStr "   "));
    try reflexivity.
  right. left. reflexivity.
Defined.

(** Claim C8 (amended): a missing or empty [Authorization] header, or one
    without a non-empty second space-separated word, is answered 401
    (Unauthenticated); every token [jwt.verify] refuses (malformed, bad
    signature, expired) is answered 403 (Forbidden); a verified token's
    [clientId] is passed on to the handler. *)
Theorem C8_auth_taxonomy (jwt_verify : string -> jwt_result) :
  authenticateJWT jwt_verify None = AuthReject 401 "Authorization header missing" /\
  authenticateJWT jwt_verify (Some EmptyString)
    = AuthReject 401 "Authorization header missing" /\
  (forall h, h <> EmptyString ->
     nth_error (split_on " " h) 1 = None \/ nth_error (split_on " " h) 1 = Some EmptyString ->
     authenticateJWT jwt_verify (Some h) = AuthReject 401 "Token not provided") /\
  (forall h token err, h <> EmptyString -> nth_error (split_on " " h) 1 = Some token ->
     token <> EmptyString -> jwt_verify token = JwtFail err ->
     authenticateJWT jwt_verify (Some h) = AuthReject 403 "Invalid or expired token") /\
  (forall h token, h <> EmptyString -> nth_error (split_on " " h) 1 = Some token ->
     token <> EmptyString -> List.length (split_on "." token) <> 3%nat ->
     authenticateJWT (jwt_verify_parts jwt_verify) (Some h)
     = AuthReject 403 "Invalid or expired token") /\
  (forall h token decoded clientId, h <> EmptyString ->
     nth_error (split_on " " h) 1 = Some token -> token <> EmptyString ->
     jwt_verify token = JwtOk decoded -> get decoded "clientId" = Ok clientId ->
     authenticateJWT jwt_verify (Some h) = AuthNext clientId).
Proof.
  split; [reflexivity |]. split; [reflexivity |].
  split; [| split; [| split]].
  - intros h Hh Hn. unfold authenticateJWT. apply String.eqb_neq in Hh. rewrite Hh.
    destruct Hn as [-> | ->]; reflexivity.
  - intros h token err Hh Hn Ht Hv. unfold authenticateJWT.
    apply String.eqb_neq in Hh, Ht. rewrite Hh, Hn, Ht, Hv. reflexivity.
  - intros h token Hh Hn Ht Hl. unfold authenticateJWT.
    apply String.eqb_neq in Hh, Ht. rewrite Hh, Hn, Ht. unfold jwt_verify_parts.
    apply Nat.eqb_neq in Hl. rewrite Hl. reflexivity.
  - intros h token decoded clientId Hh Hn Ht Hv Hg. unfold authenticateJWT.
    apply String.eqb_neq in Hh, Ht. rewrite Hh, Hn, Ht, Hv, Hg. reflexivity.
Qed.

Lemma C8_auth_taxonomy_witness :
  authenticateJWT verifier (Some "Bearer") = AuthReject 401 "Token not provided" /\
  authenticateJWT verifier (Some "Bearer old.token.sig")
    = AuthReject 403 "Invalid or expired token" /\
  authenticateJWT verifier (Some "Bearer forged.token.sig")
    = AuthReject 403 "Invalid or expired token" /\
  authenticateJWT (jwt_verify_parts verifier) (Some "Bearer garbage")
    = AuthReject 403 "Invalid or expired token" /\
  authenticateJWT verifier (Some "Bearer good.token.sig") = AuthNext (JStr "c42").
Proof.
  destruct (C8_auth_taxonomy verifier) as (_ & _ & H401 & H403 & Hmal & Hok).
  split; [apply H401; [discriminate | left; reflexivity] |].
  split; [apply (H403 _ "old.token.sig" TokenExpiredError);
          [discriminate | reflexivity | discriminate | reflexivity] |].
  split; [apply (H403 _ "forged.token.sig" (JsonWebTokenError "invalid signature"));
          [discriminate | reflexivity | discriminate | reflexivity] |].
  split; [apply (Hmal _ "garbage"); [discriminate | reflexivity | discriminate | discriminate] |].
  apply (Hok _ "good.token.sig" (JObj [("clientId", JStr "c42")]));
    [discriminate | reflexivity | discriminate | reflexivity | reflexivity].
Defined.

(** Claim C9: when the digest does not verify, save-order answers
    IntegrityViolation (400, "Order verification failed ...") and leaves the
    store as it was; more generally no answer other than 200 touches the
    store or carries an order id. *)
Theorem C9_integrity_violation_atomic (k : string) (M : mongoose_casts) (now : string) :
  (forall st order orderHash,
     save_order_checks order orderHash = true ->
     verifyOrderHash k order orderHash = Ok false ->
     save_order k M now st order orderHash = (Reply 400 msg_tampered None, st)) /\
  (forall st order orderHash s m oid st',
     save_order k M now st order orderHash = (Reply s m oid, st') ->
     s <> 200 -> st' = st /\ oid = None).
Proof.
  split.
  - intros st order h Hc Hv. rewrite (save_order_after_checks k M now st order h Hc), Hv.
    reflexivity.
  - intros st order h s m oid st' H Hs. unfold save_order in H.
    destruct (save_order_try k M now st order h) as [[r st''] | e] eqn:E.
    + injection H as -> ->.
      destruct (save_order_try_unchanged _ _ _ _ _ _ _ _ _ _ E) as [-> | [-> ->]];
        [contradiction | auto].
    + injection H; intros; subst; auto.
Qed.

Lemma C9_integrity_violation_atomic_witness :
  let edited := mutate (AddressField "city") (JStr "Mumbai") summary in
  save_order key casts now empty_store edited (JStr (digest_of summary))
    = (Reply 400 msg_tampered None, empty_store) /\
  (save_order key casts now empty_store edited (JStr (digest_of summary))
     = (Reply 400 msg_tampered None, empty_store) ->
   empty_store = empty_store /\ @None Z = None).
Proof.
  split.
  - apply (proj1 (C9_integrity_violation_atomic key casts now)); vm_compute; reflexivity.
  - intros H. apply (proj2 (C9_integrity_violation_atomic key casts now) _ _ _ _ _ _ _ H).
    discriminate.
Defined.



(** ** Counterexamples, evaluated on concrete requests *)

(** Claim C1 (counterexample): two checkout results that differ only in the
    key order of the address object get different digests, because
    [JSON.stringify] writes [order.address] in its own property order. *)
Lemma C1_address_key_order_changes_digest :
  let r := checkout key catalog800 now (JArr [line "A1" "M"]) address in
  let r' := checkout key catalog800 now (JArr [line "A1" "M"]) address_swapped in
  generateOrderHash key (order_of r) <> generateOrderHash key (order_of r').
Proof. vm_compute. intro H. injection H. intros. discriminate. Qed.

(** Claim C3 (counterexample): a catalog record whose price is [null]
    gives a cart line hashed with ["price":null]; a client that sends that
    price back as [1e400], which [JSON.parse] reads as Infinity (also
    written [null]), keeps verification [true]. *)
Lemma C3_null_to_infinity_still_verifies :
  let r := checkout key catalog_null now (JArr [line "A1" "M"]) address in
  let tampered := mutate (LineField 0 "price") (JNum (S754_infinity false)) (order_of r) in
  field_value (LineField 0 "price") (order_of r) = Some JNull /\
  field_value (LineField 0 "price") tampered = Some (JNum (S754_infinity false)) /\
  verifyOrderHash key tampered (JStr (hash_of r)) = Ok true.
Proof. vm_compute. repeat split. Qed.


(** Claim C5 (counterexample): with catalog prices 0.1 and 0.2 the returned
    subtotal is the floating-point sum 0.30000000000000004, which is not a
    figure rounded to 2 decimal places: rounding it to 2 places changes it.
    And a catalog price of -5 gives the subtotal -5: nothing checks signs. *)
Lemma C5_subtotal_not_rounded :
  let r := checkout key catalog_cents now (JArr [line "A1" "M"; line "B2" "L"]) address in
  (exists st,
    pricing_of r = Some (JObj [("subtotal", JNum st);
                               ("discount", JNum (round2 (mul st lit_0_1)));
                               ("delivery", JNum lit_150);
                               ("total", JNum (round2 (sub (add st lit_150)
                                                            (round2 (mul st lit_0_1)))))]) /\
    toString st = "0.30000000000000004" /\
    toString (round2 st) = "0.3" /\
    round2 st <> st) /\
  pricing_of (checkout key catalog_negative now (JArr [line "A1" "M"]) address)
    = Some (pricing_json (price_order (of_Z (-5)))) /\
  ltb (of_Z (-5)) zero = true.
Proof.
  split; [| split; vm_compute; reflexivity].
  exists (add (add zero (of_ratio 1 10)) (of_ratio 2 10)).
  split; [vm_compute; reflexivity |].
  split; [vm_compute; reflexivity |].
  split; [vm_compute; reflexivity |].
  vm_compute. intro H. injection H. intros. discriminate.
Qed.


(** Claim C8 (counterexample): a token that is not three dot-separated parts
    is refused by [jwt.verify] as ["jwt malformed"], and the middleware
    answers 403 (Forbidden), not 401 (Unauthenticated). *)
Lemma C8_malformed_token_is_forbidden :
  authenticateJWT (jwt_verify_parts (fun _ => JwtOk (JObj [("clientId", JStr "ab12")])))
    (Some "Bearer garbage")
  = AuthReject 403 "Invalid or expired token".
Proof. vm_compute. reflexivity. Qed.

(** ** Further properties of the handlers *)

Import Routes.

(** *** [String.prototype.trim] and [toLowerCase] *)

Lemma rev_string_app_acc (s acc : string) :
  rev_string s acc = rev_string s EmptyString ++ acc.
Proof.
  revert acc. induction s as [| c r IH]; intros acc; simpl; [reflexivity |].
  rewrite (IH (String c acc)), (IH (String c EmptyString)), sapp_assoc. reflexivity.
Qed.

Lemma rev_string_app (a b : string) :
  rev_string (a ++ b) EmptyString = rev_string b EmptyString ++ rev_string a EmptyString.
Proof.
  induction a as [| c r IH]; simpl.
  - rewrite sapp_nil_r. reflexivity.
  - rewrite (rev_string_app_acc (r ++ b)), IH, (rev_string_app_acc r (String c _)),
      sapp_assoc. reflexivity.
Qed.

Lemma rev_string_involutive (s : string) :
  rev_string (rev_string s EmptyString) EmptyString = s.
Proof.
  induction s as [| c r IH]; simpl; [reflexivity |].
  rewrite (rev_string_app_acc r (String c EmptyString)), rev_string_app, IH.
  reflexivity.
Qed.

Lemma rev_string_empty (s : string) :
  rev_string s EmptyString = EmptyString -> s = EmptyString.
Proof.
  destruct s as [| c r]; simpl; [reflexivity |].
  rewrite rev_string_app_acc. destruct (rev_string r EmptyString); discriminate.
Qed.

Lemma trim_left_idem (s : string) : trim_left (trim_left s) = trim_left s.
Proof.
  induction s as [| c r IH]; simpl; [reflexivity |].
  destruct (is_ws c) eqn:E; [exact IH | simpl; rewrite E; reflexivity].
Qed.

Lemma trim_left_suffix (s : string) : exists p, s = p ++ trim_left s.
Proof.
  induction s as [| c r [p Hp]]; simpl; [exists EmptyString; reflexivity |].
  destruct (is_ws c).
  - exists (String c p). simpl. rewrite <- Hp. reflexivity.
  - exists EmptyString. reflexivity.
Qed.

Lemma trim_left_head (s : string) :
  trim_left s = EmptyString \/ exists c r, trim_left s = String c r /\ is_ws c = false.
Proof.
  induction s as [| c r IH]; simpl; [left; reflexivity |].
  destruct (is_ws c) eqn:E; [exact IH | right; eauto].
Qed.

Lemma trim_left_keep (c : ascii) (r : string) :
  is_ws c = false -> trim_left (String c r) = String c r.
Proof. intros H. simpl. rewrite H. reflexivity. Qed.

(** [trim] is idempotent. *)
Lemma trim_idem (s : string) : trim (trim s) = trim s.
Proof.
  unfold trim.
  set (B := trim_left s).
  set (A := trim_left (rev_string B EmptyString)).
  assert (HA : trim_left (rev_string A EmptyString) = rev_string A EmptyString).
  { destruct A as [| a r] eqn:EA; [reflexivity |].
    destruct (trim_left_suffix (rev_string B EmptyString)) as [p Hp].
    fold A in Hp. rewrite EA in Hp.
    assert (HB : B = rev_string (String a r) EmptyString ++ rev_string p EmptyString).
    { rewrite <- (rev_string_involutive B), Hp, rev_string_app. reflexivity. }
    destruct (rev_string (String a r) EmptyString) as [| c t] eqn:Er.
    - apply rev_string_empty in Er. discriminate.
    - destruct (trim_left_head s) as [Hs | (c' & t' & Hs & Hc)]; fold B in Hs.
      + rewrite Hs in HB. discriminate.
      + rewrite Hs in HB. simpl in HB. injection HB as -> _.
        apply trim_left_keep. exact Hc. }
  rewrite HA, rev_string_involutive.
  unfold A. rewrite trim_left_idem. reflexivity.
Qed.

Lemma lower_char_idem (c : ascii) : lower_char (lower_char c) = lower_char c.
Proof. destruct c as [[] [] [] [] [] [] [] []]; reflexivity. Qed.

Lemma is_ws_lower_char (c : ascii) : is_ws (lower_char c) = is_ws c.
Proof. destruct c as [[] [] [] [] [] [] [] []]; reflexivity. Qed.

Lemma toLowerCase_app (a b : string) :
  toLowerCase (a ++ b) = toLowerCase a ++ toLowerCase b.
Proof. induction a as [| c r IH]; simpl; [reflexivity | rewrite IH; reflexivity]. Qed.

Lemma toLowerCase_idem (s : string) : toLowerCase (toLowerCase s) = toLowerCase s.
Proof.
  induction s as [| c r IH]; simpl; [reflexivity |]. rewrite lower_char_idem, IH.
  reflexivity.
Qed.

Lemma toLowerCase_empty (s : string) : toLowerCase s = EmptyString <-> s = EmptyString.
Proof. destruct s; simpl; split; intros H; solve [reflexivity | discriminate]. Qed.

Lemma trim_left_lower (s : string) : trim_left (toLowerCase s) = toLowerCase (trim_left s).
Proof.
  induction s as [| c r IH]; simpl; [reflexivity |].
  rewrite is_ws_lower_char. destruct (is_ws c); [exact IH | reflexivity].
Qed.

Lemma rev_string_lower (s : string) :
  rev_string (toLowerCase s) EmptyString = toLowerCase (rev_string s EmptyString).
Proof.
  induction s as [| c r IH]; simpl; [reflexivity |].
  rewrite rev_string_app_acc, (rev_string_app_acc r), IH, toLowerCase_app.
  reflexivity.
Qed.

(** Trimming and lowering commute. *)
Lemma trim_lower (s : string) : trim (toLowerCase s) = toLowerCase (trim s).
Proof.
  unfold trim. rewrite trim_left_lower, rev_string_lower, trim_left_lower,
    rev_string_lower. reflexivity.
Qed.

(** The normal form [req.body.email.trim().toLowerCase()] is a fixed point
    of the schema's setters and of itself. *)
Lemma normalize_idem (s : string) :
  toLowerCase (trim (toLowerCase (trim s))) = toLowerCase (trim s).
Proof. rewrite trim_lower, trim_idem, toLowerCase_idem. reflexivity. Qed.

(** *** The digest *)

Lemma round_length (st : list Z) (kw : Z * Z) :
  List.length st = 8%nat -> List.length (Sha256.round st kw) = 8%nat.
Proof.
  intros H.
  do 8 (destruct st as [| ? st]; [discriminate |]).
  destruct st; [reflexivity | discriminate].
Qed.

Lemma fold_round_length (l : list (Z * Z)) (st : list Z) :
  List.length st = 8%nat -> List.length (fold_left Sha256.round l st) = 8%nat.
Proof.
  revert st. induction l as [| kw l IH]; intros st H; simpl; [exact H |].
  apply IH, round_length, H.
Qed.

Lemma compress_length (st block : list Z) :
  List.length st = 8%nat -> List.length (Sha256.compress st block) = 8%nat.
Proof.
  intros H. unfold Sha256.compress.
  rewrite length_map, length_combine, fold_round_length, H; reflexivity || exact H.
Qed.

Lemma fold_compress_length (bl : list (list Z)) (st : list Z) :
  List.length st = 8%nat -> List.length (fold_left Sha256.compress bl st) = 8%nat.
Proof.
  revert st. induction bl as [| b bl IH]; intros st H; simpl; [exact H |].
  apply IH, compress_length, H.
Qed.

Lemma H0_length : List.length Sha256.H0 = 8%nat.
Proof. vm_compute. reflexivity. Qed.

Lemma bytes_of_words_length (ws : list Z) :
  List.length (Sha256.bytes_of_words ws) = (4 * List.length ws)%nat.
Proof.
  induction ws as [| w ws IH]; [reflexivity |].
  unfold Sha256.bytes_of_words in *. simpl. rewrite IH. lia.
Qed.

Lemma land_255_range (x : Z) : 0 <= Z.land x 255 < 256.
Proof.
  change 255 with (Z.ones 8). rewrite Z.land_ones by lia.
  apply Z.mod_pos_bound. lia.
Qed.

Lemma bytes_of_words_range (ws : list Z) :
  Forall (fun b => 0 <= b < 256) (Sha256.bytes_of_words ws).
Proof.
  induction ws as [| w ws IH]; [constructor |].
  unfold Sha256.bytes_of_words in *. simpl.
  repeat constructor; solve [apply land_255_range | exact IH].
Qed.

Lemma hash_bytes (m : list Z) :
  List.length (Sha256.hash m) = 32%nat /\ Forall (fun b => 0 <= b < 256) (Sha256.hash m).
Proof.
  unfold Sha256.hash. split; [| apply bytes_of_words_range].
  rewrite bytes_of_words_length, fold_compress_length; [reflexivity | exact H0_length].
Qed.

Lemma hex_digit_lower_hex (n : Z) : 0 <= n < 16 -> is_lower_hex (Sha256.hex_digit n) = true.
Proof.
  intros H. unfold Sha256.hex_digit, is_lower_hex.
  destruct (n <? 10)%Z eqn:E; [apply Z.ltb_lt in E | apply Z.ltb_ge in E];
    rewrite nat_ascii_embedding by lia; apply orb_true_iff;
    [left | right]; apply andb_true_iff; split; apply Nat.leb_le; lia.
Qed.

Lemma to_hex_length (bs : list Z) :
  String.length (Sha256.to_hex bs) = (2 * List.length bs)%nat.
Proof. induction bs as [| b bs IH]; simpl; [reflexivity | rewrite IH; lia]. Qed.

Lemma to_hex_lower_hex (bs : list Z) :
  Forall (fun b => 0 <= b < 256) bs -> all_chars is_lower_hex (Sha256.to_hex bs) = true.
Proof.
  unfold all_chars. induction 1 as [| b bs Hb _ IH]; [reflexivity |].
  simpl. rewrite IH, !hex_digit_lower_hex; [reflexivity | |].
  - change 15 with (Z.ones 4). rewrite Z.land_ones by lia. apply Z.mod_pos_bound. lia.
  - rewrite Z.shiftr_div_pow2 by lia. change (2 ^ 4) with 16.
    split; [apply Z.div_pos; lia | apply Z.div_lt_upper_bound; lia].
Qed.

(** *** Splitting the [authorization] header *)

Lemma split_on_not_nil (sep : ascii) (s : string) : split_on sep s <> [].
Proof.
  induction s as [| c r IH]; simpl; [discriminate |].
  destruct (split_on sep r); [contradiction | destruct (Ascii.eqb c sep); discriminate].
Qed.

Lemma split_on_no_sep (sep : ascii) (a : string) :
  all_chars (fun c => negb (Ascii.eqb c sep)) a = true -> split_on sep a = [a].
Proof.
  unfold all_chars. induction a as [| c r IH]; simpl; intros H; [reflexivity |].
  apply andb_prop in H as [Hc Hr]. rewrite (IH Hr).
  apply negb_true_iff in Hc. rewrite Hc. reflexivity.
Qed.

Lemma split_on_app_sep (sep : ascii) (a b : string) :
  all_chars (fun c => negb (Ascii.eqb c sep)) a = true ->
  split_on sep (a ++ String sep b) = a :: split_on sep b.
Proof.
  unfold all_chars. induction a as [| c r IH]; simpl; intros H.
  - destruct (split_on sep b) as [| w ws] eqn:E; [exfalso; exact (split_on_not_nil _ _ E) |].
    rewrite Ascii.eqb_refl. reflexivity.
  - apply andb_prop in H as [Hc Hr]. rewrite (IH Hr).
    apply negb_true_iff in Hc. rewrite Hc. reflexivity.
Qed.

(** *** Checkout and save-order *)

Lemma hmac_sha256_hex_format (k m : string) :
  String.length (Sha256.hmac_sha256_hex k m) = 64%nat /\
  all_chars is_lower_hex (Sha256.hmac_sha256_hex k m) = true.
Proof.
  unfold Sha256.hmac_sha256_hex, Sha256.hmac.
  cbv zeta.
  match goal with
  | |- context [Sha256.to_hex (Sha256.hash ?x)] => destruct (hash_bytes x) as [Hl Hr]
  end.
  split.
  - rewrite to_hex_length, Hl. reflexivity.
  - apply to_hex_lower_hex, Hr.
Qed.

Lemma checkout_try_codes_throw (k : string) (cat : list product) (now : string)
    (lines : list jsval) (address : jsval) (e : js_error) :
  map_res code_of_item lines = Throw e ->
  checkout_try k cat now (JArr lines) address = Throw e.
Proof.
  intros H. cbv beta iota delta [checkout_try js_map].
  rewrite map_res_bind_Ok, H. reflexivity.
Qed.

Lemma checkout_pre (k : string) (cat : list product) (now : string)
    (cart address order : jsval) (d : string) :
  checkout k cat now cart address = CheckoutOk order d ->
  exists lines, cart = JArr lines /\ lines <> [] /\
    truthy address = true /\ is_object_type address = true.
Proof.
  unfold checkout. intros H.
  destruct (negb (truthy cart) || negb (is_array cart)
            || match cart with JArr [] => true | _ => false end) eqn:Hc; [discriminate |].
  destruct (negb (truthy address) || negb (is_object_type address)) eqn:Hd;
    [discriminate |].
  apply orb_false_iff in Hc as [Hc Hc3]. apply orb_false_iff in Hc as [_ Hc2].
  apply orb_false_iff in Hd as [Hd1 Hd2]. apply negb_false_iff in Hd1, Hd2.
  destruct cart as [| | | | | [| l ls] | | |]; simpl in Hc2, Hc3; try discriminate.
  exists (l :: ls). repeat split; auto; discriminate.
Qed.

(** A successful checkout, in terms of the cart lines and the product
    codes they carry. *)
Lemma checkout_ok_inv (k : string) (cat : list product) (now : string)
    (cart address order : jsval) (d : string) :
  checkout k cat now cart address = CheckoutOk order d ->
  exists lines codes,
    cart = JArr lines /\ lines <> [] /\
    truthy address = true /\ is_object_type address = true /\
    map_res code_of_item lines = Ok codes /\
    order = order_summary now address
              (filter_some (map (line_kept (find_products cat codes)) lines)) /\
    generateOrderHash k order = Ok d.
Proof.
  intros H.
  destruct (checkout_pre _ _ _ _ _ _ _ H) as (lines & -> & Hne & Ha & Ho).
  destruct (map_res code_of_item lines) as [codes | e] eqn:Hc.
  - rewrite (checkout_valid_codes k cat now lines address codes Hne Ha Ho Hc) in H.
    destruct (find_products cat codes) as [| p0 ps0] eqn:Ef;
      cbv beta iota in H; [discriminate |].
    destruct (filter_some (map (line_kept (p0 :: ps0)) lines)) as [| i0 is0] eqn:Ek;
      cbv beta iota zeta in H; [discriminate |].
    destruct (generateOrderHash k (order_summary now address (i0 :: is0))) eqn:Eg;
      cbv beta iota in H; [| discriminate].
    injection H as <- <-. exists lines, codes. rewrite Ef, Ek. repeat split; auto.
  - exfalso. unfold checkout in H.
    assert (Hpre : (negb (truthy (JArr lines)) || negb (is_array (JArr lines))
                    || match JArr lines with JArr [] => true | _ => false end) = false).
    { destruct lines; [contradiction | reflexivity]. }
    rewrite Hpre, Ha, Ho, (checkout_try_codes_throw _ _ _ _ _ _ Hc) in H. discriminate.
Qed.

Lemma filter_some_In {A} (x : A) (l : list (option A)) :
  In x (filter_some l) -> In (Some x) l.
Proof.
  induction l as [| [y |] l IH]; simpl; [auto | intros [-> | H]; auto | auto].
Qed.

(** A line the enhanced cart keeps is built from a product of the list
    and from the cart line's code and size. *)
Lemma line_kept_Some (products : list product) (l item : jsval) :
  line_kept products l = Some item ->
  exists p ps c,
    In p products /\ l = JObj ps /\ product_code p = Some c /\
    lookup "productCode" ps = JStr c /\
    trim (string_of (lookup "size" ps)) <> EmptyString /\
    item = JObj [("_id", JObjectId (p_id p)); ("productCode", JStr c);
                 ("productName", product_name p); ("price", product_price p);
                 ("imageUrl", product_imageurl p);
                 ("size", JStr (trim (string_of (lookup "size" ps))))].
Proof.
  unfold line_kept, enhance_item.
  destruct (get l "productCode") as [code |] eqn:Eg; simpl; [| discriminate].
  destruct (find _ products) as [p |] eqn:Ef; simpl; [| discriminate].
  apply find_some in Ef as [Hin Hp].
  destruct (product_code p) as [c |] eqn:Epc; [| discriminate].
  destruct code as [| | | | s | | | |]; try discriminate.
  apply String.eqb_eq in Hp. subst s.
  destruct l as [| | | | | | ps | |]; simpl in Eg; try discriminate.
  injection Eg as Eg. simpl.
  assert (Hsz : (match lookup "size" ps with JStr s => trim s | _ => EmptyString end)
                = trim (string_of (lookup "size" ps))).
  { destruct (lookup "size" ps); reflexivity. }
  rewrite Hsz.
  destruct (String.eqb_spec (trim (string_of (lookup "size" ps))) EmptyString);
    [discriminate |].
  intros Hi. injection Hi as <-. exists p, ps, c. repeat split; auto.
Qed.

Lemma truthy_nonempty_string (s : string) :
  String.length s = 64%nat -> truthy (JStr s) = true.
Proof. destruct s; [discriminate | reflexivity]. Qed.

Lemma generateOrderHash_Ok (k : string) (order : jsval) (d : string) :
  generateOrderHash k order = Ok d -> exists s, d = Sha256.hmac_sha256_hex k s.
Proof.
  unfold generateOrderHash. destruct (orderString order) as [s |]; simpl; [| discriminate].
  intros H. injection H as <-. eauto.
Qed.

Lemma checkout_try_err (k : string) (cat : list product) (now : string)
    (cart address : jsval) (s : Z) (m : string) :
  checkout_try k cat now cart address = Ok (CheckoutErr s m) ->
  (s = 404 /\ m = "No products found in database") \/
  (s = 400 /\ m = "No valid items in cart").
Proof.
  unfold checkout_try, bind. intros H. break_in H; try discriminate;
    injection H; intros; subst; auto.
Qed.


Lemma auth_header_token (jwt_verify : string -> jwt_result) (h token : string) :
  h <> EmptyString -> token <> EmptyString ->
  nth_error (split_on " " h) 1 = Some token ->
  authenticateJWT jwt_verify (Some h) =
  match jwt_verify token with
  | JwtOk decoded =>
      match get decoded "clientId" with
      | Ok clientId => AuthNext clientId
      | Throw _ => AuthReject 403 "Invalid or expired token"
      end
  | JwtFail _ => AuthReject 403 "Invalid or expired token"
  end.
Proof.
  intros Hh Ht Hn. unfold authenticateJWT.
  apply String.eqb_neq in Hh, Ht. rewrite Hh, Hn, Ht. reflexivity.
Qed.

(** *** Extra properties: [authenticateJWT] *)

(** X1: the first word of the [authorization] header is never checked,
    and words after the token are ignored: [<scheme> <token>[ ...]] is
    treated as [Bearer <token>]. *)
Theorem X1_auth_scheme_unchecked (jwt_verify : string -> jwt_result)
    (scheme token rest : string) :
  no_space scheme = true -> no_space token = true -> token <> EmptyString ->
  (rest = EmptyString \/ exists r, rest = String " " r) ->
  authenticateJWT jwt_verify (Some (scheme ++ String " " (token ++ rest)))
  = authenticateJWT jwt_verify (Some ("Bearer " ++ token)).
Proof.
  unfold no_space. intros Hs Ht Hne Hr.
  assert (Hb : ("Bearer " ++ token = "Bearer" ++ String " " token)%string) by reflexivity.
  rewrite Hb.
  rewrite (auth_header_token _ _ token); [| destruct scheme; discriminate | exact Hne |].
  - rewrite (auth_header_token _ _ token); [reflexivity | discriminate | exact Hne |].
    rewrite split_on_app_sep by reflexivity. rewrite split_on_no_sep by exact Ht.
    reflexivity.
  - rewrite split_on_app_sep by exact Hs.
    destruct Hr as [-> | [r ->]].
    + rewrite sapp_nil_r, split_on_no_sep by exact Ht. reflexivity.
    + rewrite split_on_app_sep by exact Ht. reflexivity.
Qed.

Lemma X1_auth_scheme_unchecked_witness :
  no_space "Basic" = true /\ no_space "good.token.sig" = true /\
  "good.token.sig" <> EmptyString /\
  (" extra" = EmptyString \/ exists r, " extra" = String " " r) /\
  authenticateJWT verifier (Some "Basic good.token.sig extra")
  = authenticateJWT verifier (Some "Bearer good.token.sig").
Proof.
  assert (H1 : no_space "Basic" = true) by reflexivity.
  assert (H2 : no_space "good.token.sig" = true) by reflexivity.
  assert (H3 : "good.token.sig" <> EmptyString) by discriminate.
  assert (H4 : " extra" = EmptyString \/ exists r, " extra" = String " " r)
    by (right; exists "extra"; reflexivity).
  exact (conj H1 (conj H2 (conj H3 (conj H4
           (X1_auth_scheme_unchecked verifier "Basic" "good.token.sig" " extra"
              H1 H2 H3 H4))))).
Defined.

(** X2: a header whose first word is followed by two spaces carries no
    token: it is answered 401 "Token not provided", whatever follows. *)
Theorem X2_auth_double_space (jwt_verify : string -> jwt_result) (scheme r : string) :
  no_space scheme = true ->
  authenticateJWT jwt_verify (Some (scheme ++ String " " (String " " r)))
  = AuthReject 401 "Token not provided".
Proof.
  unfold no_space. intros Hs. unfold authenticateJWT.
  assert (He : String.eqb (scheme ++ String " " (String " " r)) EmptyString = false)
    by (destruct scheme; reflexivity).
  rewrite He. rewrite split_on_app_sep by exact Hs.
  change (String " " r) with (EmptyString ++ String " " r).
  rewrite split_on_app_sep by reflexivity. reflexivity.
Qed.

Lemma X2_auth_double_space_witness :
  no_space "Bearer" = true /\
  authenticateJWT verifier (Some "Bearer  good.token.sig")
  = AuthReject 401 "Token not provided".
Proof.
  assert (H : no_space "Bearer" = true) by reflexivity.
  exact (conj H (X2_auth_double_space verifier "Bearer" "good.token.sig" H)).
Defined.

(** *** Extra properties: [generateOrderHash] *)

(** X3: every digest [generateOrderHash] returns is 64 characters of
    [0-9a-f]. *)
Theorem X3_digest_format (k : string) (order : jsval) (d : string) :
  generateOrderHash k order = Ok d ->
  String.length d = 64%nat /\ all_chars is_lower_hex d = true.
Proof.
  intros H. destruct (generateOrderHash_Ok _ _ _ H) as [s ->].
  apply hmac_sha256_hex_format.
Qed.

Lemma X3_digest_format_witness :
  generateOrderHash key summary = Ok (digest_of summary) /\
  String.length (digest_of summary) = 64%nat /\
  all_chars is_lower_hex (digest_of summary) = true.
Proof.
  assert (H : generateOrderHash key summary = Ok (digest_of summary))
    by (vm_compute; reflexivity).
  exact (conj H (X3_digest_format key summary (digest_of summary) H)).
Defined.

(** *** Extra properties: [/api/checkout] *)

(** X4: every line of a checkout summary is built from a catalog product
    whose code equals, exactly, the [productCode] of one of the client's
    cart lines: [_id], [productCode], [productName], [price] and
    [imageUrl] are the product's, and [size] is that cart line's size,
    trimmed and not empty.  Nothing else of the client's line is copied. *)
Theorem X4_checkout_lines_from_catalog (k : string) (cat : list product) (now : string)
    (lines : list jsval) (address order : jsval) (d : string) :
  checkout k cat now (JArr lines) address = CheckoutOk order d ->
  exists items,
    cart_of (CheckoutOk order d) = Some (JArr items) /\
    Forall (fun item =>
      exists p ps c,
        In p cat /\ In (JObj ps) lines /\ product_code p = Some c /\
        lookup "productCode" ps = JStr c /\
        trim (string_of (lookup "size" ps)) <> EmptyString /\
        item = JObj [("_id", JObjectId (p_id p)); ("productCode", JStr c);
                     ("productName", product_name p); ("price", product_price p);
                     ("imageUrl", product_imageurl p);
                     ("size", JStr (trim (string_of (lookup "size" ps))))]) items.
Proof.
  intros H.
  destruct (checkout_ok_inv _ _ _ _ _ _ _ H)
    as (lines' & codes & Hl & _ & _ & _ & _ & -> & _).
  injection Hl as <-.
  eexists. split; [reflexivity |].
  apply Forall_forall. intros item Hin.
  apply filter_some_In, in_map_iff in Hin as [l [Hk Hl]].
  destruct (line_kept_Some _ _ _ Hk) as (p & ps & c & Hp & -> & Hpc & Hc & Hsz & ->).
  exists p, ps, c. repeat split; auto.
  unfold find_products in Hp. apply filter_In in Hp as [Hp _]. exact Hp.
Qed.

Lemma X4_checkout_lines_from_catalog_witness :
  checkout key catalog800 now
    (JArr [JObj [("productCode", JStr "A1"); ("size", JStr " M ");
                 ("price", JNum (of_Z 1)); ("productName", JStr "Free")]])
    address
  = CheckoutOk (order_summary now address [tee_line "652f1c0e9b1e8a0012a4b001" "tee.png"])
      (digest_of (order_summary now address [tee_line "652f1c0e9b1e8a0012a4b001" "tee.png"]))
  /\ exists items,
    cart_of (CheckoutOk (order_summary now address [tee_line "652f1c0e9b1e8a0012a4b001" "tee.png"])
      (digest_of (order_summary now address [tee_line "652f1c0e9b1e8a0012a4b001" "tee.png"])))
    = Some (JArr items) /\
    Forall (fun item =>
      exists p ps c,
        In p catalog800 /\
        In (JObj ps) [JObj [("productCode", JStr "A1"); ("size", JStr " M ");
                            ("price", JNum (of_Z 1)); ("productName", JStr "Free")]] /\
        product_code p = Some c /\
        lookup "productCode" ps = JStr c /\
        trim (string_of (lookup "size" ps)) <> EmptyString /\
        item = JObj [("_id", JObjectId (p_id p)); ("productCode", JStr c);
                     ("productName", product_name p); ("price", product_price p);
                     ("imageUrl", product_imageurl p);
                     ("size", JStr (trim (string_of (lookup "size" ps))))]) items.
Proof.
  assert (H : checkout key catalog800 now
    (JArr [JObj [("productCode", JStr "A1"); ("size", JStr " M ");
                 ("price", JNum (of_Z 1)); ("productName", JStr "Free")]])
    address
  = CheckoutOk (order_summary now address [tee_line "652f1c0e9b1e8a0012a4b001" "tee.png"])
      (digest_of (order_summary now address [tee_line "652f1c0e9b1e8a0012a4b001" "tee.png"])))
    by (vm_compute; reflexivity).
  exact (conj H (X4_checkout_lines_from_catalog _ _ _ _ _ _ _ H)).
Defined.

(** X5: checkout answers 400 "Invalid request. Cart items are required."
    to any cart that is not a non-empty array; for a non-empty array it
    answers 400 "Invalid request. Address details are required." exactly
    when [typeof address !== 'object'] or the address is [null], so an
    array or any object is accepted as an address. *)
Theorem X5_checkout_request_validation (k : string) (cat : list product) (now : string)
    (cart address : jsval) :
  (match cart with JArr (_ :: _) => False | _ => True end ->
   checkout k cat now cart address
   = CheckoutErr 400 "Invalid request. Cart items are required.") /\
  (forall l ls, cart = JArr (l :: ls) ->
   (checkout k cat now cart address
    = CheckoutErr 400 "Invalid request. Address details are required."
    <-> is_object_type address = false \/ address = JNull)).
Proof.
  split.
  - intros H. unfold checkout.
    destruct cart as [| | | | | [| l ls] | | |]; simpl; try reflexivity;
      try contradiction; rewrite orb_true_r; reflexivity.
  - intros l ls ->. unfold checkout. simpl. split.
    + destruct address as [| | | | | | | |]; simpl; auto.
      all: destruct (checkout_try k cat now (JArr (l :: ls)) _) as [[o h | s m] |] eqn:E;
        intros Hr; try discriminate;
        injection Hr as -> ->; apply checkout_try_err in E as [[_ Hm] | [_ Hm]];
        discriminate.
    + intros [Ho | ->]; [| reflexivity].
      rewrite Ho, orb_true_r. reflexivity.
Qed.

Lemma X5_checkout_request_validation_witness :
  checkout key catalog800 now (JArr []) address
    = CheckoutErr 400 "Invalid request. Cart items are required." /\
  (checkout key catalog800 now (JArr [line "A1" "M"]) (JStr "Pune")
     = CheckoutErr 400 "Invalid request. Address details are required.") /\
  ~ (checkout key catalog800 now (JArr [line "A1" "M"]) (JArr [])
     = CheckoutErr 400 "Invalid request. Address details are required.").
Proof.
  destruct (X5_checkout_request_validation key catalog800 now (JArr []) address) as [H1 _].
  split; [exact (H1 I) |].
  destruct (X5_checkout_request_validation key catalog800 now (JArr [line "A1" "M"])
              (JStr "Pune")) as [_ H2].
  destruct (X5_checkout_request_validation key catalog800 now (JArr [line "A1" "M"])
              (JArr [])) as [_ H3].
  split.
  - apply (H2 _ _ eq_refl). left. reflexivity.
  - rewrite (H3 _ _ eq_refl). intros [Ho | Hn]; discriminate.
Defined.

(** *** Extra properties: [/api/save-order] *)



(** X8: an order that passes save-order's checks but has a [null] or
    [undefined] element in its cart makes [generateOrderHash] throw: the
    answer is 500 "Server error saving order" and nothing is stored. *)
Theorem X8_save_order_null_line (k : string) (M : mongoose_casts) (now : string)
    (st : order_store) (ps : list (string * jsval)) (items : list jsval) (orderHash : jsval) :
  save_order_checks (JObj ps) orderHash = true ->
  lookup "cart" ps = JArr items ->
  In JNull items \/ In JUndefined items ->
  save_order k M now st (JObj ps) orderHash = (Reply 500 "Server error saving order" None, st).
Proof.
  intros Hc Hcart Hin.
  rewrite (save_order_after_checks _ _ _ _ _ _ Hc).
  assert (Ht : exists e, map_res project_item items = Throw e).
  { destruct Hin as [Hin | Hin];
      eapply map_res_Throw_In; eauto; reflexivity. }
  destruct Ht as [e He].
  unfold verifyOrderHash, generateOrderHash, orderString. simpl.
  rewrite Hcart. simpl. rewrite He. reflexivity.
Qed.

Lemma X8_save_order_null_line_witness :
  save_order_checks
    (JObj [("cart", JArr [tee_line "652f1c0e9b1e8a0012a4b001" "tee.png"; JNull]);
           ("address", address); ("pricing", pricing_json (price_order (of_Z 800)))])
    (JStr "0") = true /\
  lookup "cart"
    [("cart", JArr [tee_line "652f1c0e9b1e8a0012a4b001" "tee.png"; JNull]);
     ("address", address); ("pricing", pricing_json (price_order (of_Z 800)))]
  = JArr [tee_line "652f1c0e9b1e8a0012a4b001" "tee.png"; JNull] /\
  save_order key casts now empty_store
    (JObj [("cart", JArr [tee_line "652f1c0e9b1e8a0012a4b001" "tee.png"; JNull]);
           ("address", address); ("pricing", pricing_json (price_order (of_Z 800)))])
    (JStr "0")
  = (Reply 500 "Server error saving order" None, empty_store).
Proof.
  assert (H1 : save_order_checks
    (JObj [("cart", JArr [tee_line "652f1c0e9b1e8a0012a4b001" "tee.png"; JNull]);
           ("address", address); ("pricing", pricing_json (price_order (of_Z 800)))])
    (JStr "0") = true) by reflexivity.
  assert (H2 : lookup "cart"
    [("cart", JArr [tee_line "652f1c0e9b1e8a0012a4b001" "tee.png"; JNull]);
     ("address", address); ("pricing", pricing_json (price_order (of_Z 800)))]
  = JArr [tee_line "652f1c0e9b1e8a0012a4b001" "tee.png"; JNull]) by reflexivity.
  split; [exact H1 |]. split; [exact H2 |].
  apply (X8_save_order_null_line key casts now empty_store _ _ _ H1 H2).
  left. right. left. reflexivity.
Defined.

(** *** Extra properties: [/api/add-to-collection] *)

Lemma find_none_all {A} (f : A -> bool) (l : list A) :
  (forall x, In x l -> f x = false) -> find f l = None.
Proof.
  induction l as [| x l IH]; simpl; intros H; [reflexivity |].
  rewrite (H x (or_introl eq_refl)). apply IH. intros y Hy. apply H. right. exact Hy.
Qed.

Lemma find_first {A} (f : A -> bool) (pre post : list A) (x : A) :
  Forall (fun y => f y = false) pre -> f x = true -> find f (pre ++ x :: post)%list = Some x.
Proof.
  induction 1 as [| y pre Hy _ IH]; simpl; intros Hx; [rewrite Hx; reflexivity |].
  rewrite Hy. exact (IH Hx).
Qed.

Lemma code_match_false (code : string) (q : product) :
  product_code q <> Some code ->
  match product_code q with Some c => String.eqb c code | None => false end = false.
Proof.
  intros H. destruct (product_code q) as [c |]; [| reflexivity].
  apply String.eqb_neq. intros ->. apply H. reflexivity.
Qed.

(** X9: add-to-collection answers 400 when [productName] or [size] is not
    a string with a non-blank trimmed value; otherwise it looks the
    trimmed [productName] up as a product CODE: 404 when no product has
    exactly that code, else 200 with the first such product in collection
    order and the trimmed size.  It answers 500 "Server error" exactly when
    the inputs pass the first check and [Product.findOne] rejects. *)
Theorem X9_add_to_collection_lookup (productName size : jsval) :
  (forall db,
   trimmed_string productName = EmptyString \/ trimmed_string size = EmptyString ->
   add_to_collection db productName size
   = CollectionErr 400 "Product name and size are required") /\
  (forall cat,
   trimmed_string productName <> EmptyString -> trimmed_string size <> EmptyString ->
   (forall p, In p cat -> product_code p <> Some (trimmed_string productName)) ->
   add_to_collection (Products cat) productName size = CollectionErr 404 "Product not found") /\
  (forall cat pre p post,
   trimmed_string productName <> EmptyString -> trimmed_string size <> EmptyString ->
   cat = (pre ++ p :: post)%list ->
   product_code p = Some (trimmed_string productName) ->
   Forall (fun q => product_code q <> Some (trimmed_string productName)) pre ->
   add_to_collection (Products cat) productName size
   = CollectionOk p (trimmed_string size)) /\
  (forall db m,
   add_to_collection db productName size = CollectionErr 500 m <->
   (trimmed_string productName <> EmptyString /\ trimmed_string size <> EmptyString /\
    m = "Server error" /\ exists err, db = ProductsDown err)).
Proof.
  unfold add_to_collection.
  split; [| split; [| split]].
  - intros db [-> | ->]; [reflexivity | rewrite orb_true_r; reflexivity].
  - intros cat Hn Hs Hnone.
    apply String.eqb_neq in Hn, Hs. rewrite Hn, Hs. simpl.
    rewrite find_none_all; [reflexivity |].
    intros q Hq. apply code_match_false, Hnone, Hq.
  - intros cat pre p post Hn Hs -> Hp Hpre.
    apply String.eqb_neq in Hn, Hs. rewrite Hn, Hs. simpl.
    rewrite find_first; [reflexivity | |].
    + eapply Forall_impl; [| exact Hpre]. intros q Hq. apply code_match_false, Hq.
    + rewrite Hp. apply String.eqb_refl.
  - intros db m. split.
    + destruct (String.eqb (trimmed_string productName) EmptyString) eqn:Hn,
        (String.eqb (trimmed_string size) EmptyString) eqn:Hs; simpl;
        try discriminate.
      apply String.eqb_neq in Hn, Hs.
      destruct db as [cat | err]; simpl.
      * destruct (find _ cat); discriminate.
      * intros H. injection H as <-. repeat split; auto. exists err. reflexivity.
    + intros (Hn & Hs & -> & err & ->).
      apply String.eqb_neq in Hn, Hs. rewrite Hn, Hs. reflexivity.
Qed.

Lemma X9_add_to_collection_lookup_witness :
  add_to_collection (Products catalog_cents) (JStr "  ") (JStr "M")
    = CollectionErr 400 "Product name and size are required" /\
  add_to_collection (Products catalog_cents) (JStr "Tee") (JStr "M")
    = CollectionErr 404 "Product not found" /\
  add_to_collection (Products catalog_cents) (JStr " B2 ") (JStr " L")
    = CollectionOk (cap (JNum (of_ratio 2 10))) "L" /\
  add_to_collection (ProductsDown (Error "connection refused")) (JStr "B2") (JStr "L")
    = CollectionErr 500 "Server error".
Proof.
  destruct (X9_add_to_collection_lookup (JStr "  ") (JStr "M")) as [H1 _].
  destruct (X9_add_to_collection_lookup (JStr "Tee") (JStr "M")) as [_ [H2 _]].
  destruct (X9_add_to_collection_lookup (JStr " B2 ") (JStr " L")) as [_ [_ [H3 _]]].
  destruct (X9_add_to_collection_lookup (JStr "B2") (JStr "L")) as [_ [_ [_ H4]]].
  split; [apply H1; left; reflexivity |].
  split; [| split].
  - apply H2; [discriminate | discriminate |].
    intros p [<- | [<- | []]]; discriminate.
  - apply (H3 _ [tee (JNum (of_ratio 1 10))] _ []); try discriminate; try reflexivity.
    constructor; [discriminate | constructor].
  - apply H4. split; [discriminate |]. split; [discriminate |]. split; [reflexivity |].
    eexists. reflexivity.
Defined.

(** X10: white space around [productName] or [size] never changes the
    answer of add-to-collection. *)
Theorem X10_add_to_collection_trim (db : product_db) (name size : string) (v : jsval) :
  add_to_collection db (JStr name) v = add_to_collection db (JStr (trim name)) v /\
  add_to_collection db v (JStr size) = add_to_collection db v (JStr (trim size)).
Proof.
  unfold add_to_collection. simpl. rewrite !trim_idem. split; reflexivity.
Qed.

(** *** Extra properties: [/api/subscribe] *)

Section SubscribeProofs.

Variable isEmail : string -> bool.

(** The two ways a subscription ends: a reply other than 201 with the
    collection unchanged, or 201 with the normalized address appended. *)
Lemma subscribe_outcome (now : string) (st : list email_doc) (v : jsval) :
  (exists s m, subscribe isEmail now st v = (SubscribeReply s m, st) /\ s <> 201) \/
  (exists e, v = JStr e /\
     subscribe isEmail now st v
     = (SubscribeReply 201 "Successfully subscribed to newsletter!",
        (st ++ [{| email := toLowerCase (trim e); subscriptionDate := now |}])%list) /\
     isEmail (toLowerCase (trim e)) = true /\
     email_pattern (toLowerCase (trim e)) = true /\
     Forall (fun d => email d <> toLowerCase (trim e)) st).
Proof.
  unfold subscribe, subscribe_try.
  destruct (truthy v) eqn:Hv.
  2: { left. simpl. eauto with zarith. }
  destruct v as [| | | | e | | | |]; try (left; eexists _, _; split; [reflexivity | discriminate]).
  destruct (String.eqb (toLowerCase (trim e)) EmptyString) eqn:E1;
    [left; eexists _, _; split; [reflexivity | discriminate] |].
  destruct (isEmail (toLowerCase (trim e))) eqn:E2;
    [| left; eexists _, _; split; [reflexivity | discriminate]].
  simpl.
  destruct (existsb (fun d => String.eqb (email d) (toLowerCase (trim e))) st) eqn:E3;
    [left; eexists _, _; split; [reflexivity | discriminate] |].
  unfold email_cast. rewrite normalize_idem, E1.
  destruct (email_pattern (toLowerCase (trim e))) eqn:E4;
    [| left; eexists _, _; split; [reflexivity | discriminate]].
  right. exists e. repeat split; auto.
  apply Forall_forall. intros d Hd Heq.
  assert (Hin : existsb (fun d => String.eqb (email d) (toLowerCase (trim e))) st = true).
  { apply existsb_exists. exists d. split; [exact Hd | apply String.eqb_eq, Heq]. }
  congruence.
Qed.

End SubscribeProofs.

Lemma trim_nonempty (s : string) : trim s <> EmptyString -> s <> EmptyString.
Proof. intros H ->. apply H. reflexivity. Qed.

(** X11: a missing or falsy [email], or one that is blank once trimmed,
    is answered 400 "Email is required"; a truthy [email] that is not a
    string (a number, an object, an array, [true]) has no [trim] method
    and is answered 500 "Server error, please try again later".  The
    collection is unchanged in both cases. *)
Theorem X11_subscribe_missing_email (isEmail : string -> bool) (now : string)
    (st : list email_doc) (v : jsval) :
  (truthy v = false \/ (exists e, v = JStr e /\ trim e = EmptyString) ->
   subscribe isEmail now st v = (SubscribeReply 400 "Email is required", st)) /\
  (truthy v = true -> is_string v = false ->
   subscribe isEmail now st v
   = (SubscribeReply 500 "Server error, please try again later", st)).
Proof.
  unfold subscribe, subscribe_try. split.
  - intros [Hv | (e & -> & He)].
    + rewrite Hv. reflexivity.
    + rewrite He. destruct (truthy (JStr e)); reflexivity.
  - intros Hv Hs. rewrite Hv.
    destruct v as [| | | | e | | | |]; try discriminate; reflexivity.
Qed.

Lemma X11_subscribe_missing_email_witness :
  subscribe loose_isEmail now subscribers (JStr "   ")
    = (SubscribeReply 400 "Email is required", subscribers) /\
  subscribe loose_isEmail now subscribers (JNum (of_Z 7))
    = (SubscribeReply 500 "Server error, please try again later", subscribers).
Proof.
  split.
  - apply (proj1 (X11_subscribe_missing_email loose_isEmail now subscribers (JStr "   "))).
    right. exists "   ". split; reflexivity.
  - apply (proj2 (X11_subscribe_missing_email loose_isEmail now subscribers (JNum (of_Z 7))));
      reflexivity.
Defined.

(** X12: a 201 answer means the request's [email] was a string [e] and
    exactly one document was appended: [e.trim().toLowerCase()] with the
    current time; that address passes [isEmail] and the schema's pattern,
    and no earlier document held it. *)
Theorem X12_subscribe_created (isEmail : string -> bool) (now : string)
    (st st' : list email_doc) (v : jsval) (m : string) :
  subscribe isEmail now st v = (SubscribeReply 201 m, st') ->
  exists e, v = JStr e /\
    st' = (st ++ [{| email := toLowerCase (trim e); subscriptionDate := now |}])%list /\
    isEmail (toLowerCase (trim e)) = true /\
    email_pattern (toLowerCase (trim e)) = true /\
    Forall (fun d => email d <> toLowerCase (trim e)) st.
Proof.
  intros H.
  destruct (subscribe_outcome isEmail now st v)
    as [(s & m' & Hs & Hne) | (e & -> & Hs & Hi & Hp & Hf)]; rewrite Hs in H.
  - injection H as -> _ _. contradiction.
  - injection H as _ <-. exists e. repeat split; auto.
Qed.

Lemma X12_subscribe_created_witness :
  subscribe email_pattern now subscribers (JStr " Bob@Example.COM ")
  = (SubscribeReply 201 "Successfully subscribed to newsletter!",
     (subscribers ++ [{| email := "bob@example.com"; subscriptionDate := now |}])%list) /\
  exists e, JStr " Bob@Example.COM " = JStr e /\
    (subscribers ++ [{| email := "bob@example.com"; subscriptionDate := now |}])%list
    = (subscribers ++ [{| email := toLowerCase (trim e); subscriptionDate := now |}])%list /\
    email_pattern (toLowerCase (trim e)) = true /\
    email_pattern (toLowerCase (trim e)) = true /\
    Forall (fun d => email d <> toLowerCase (trim e)) subscribers.
Proof.
  assert (H : subscribe email_pattern now subscribers (JStr " Bob@Example.COM ")
    = (SubscribeReply 201 "Successfully subscribed to newsletter!",
       (subscribers ++ [{| email := "bob@example.com"; subscriptionDate := now |}])%list))
    by reflexivity.
  exact (conj H (X12_subscribe_created _ _ _ _ _ _ H)).
Defined.

(** Subscribing only ever appends: the collection after any sequence of
    requests extends the one before. *)
Lemma subscribe_all_extends (isEmail : string -> bool) (reqs : list (string * jsval))
    (st : list email_doc) :
  exists ext, subscribe_all isEmail reqs st = (st ++ ext)%list.
Proof.
  revert st. induction reqs as [| [t v] reqs IH]; intros st; simpl.
  - exists []. rewrite app_nil_r. reflexivity.
  - destruct (subscribe_outcome isEmail t st v)
      as [(s & m & Hs & _) | (e & _ & Hs & _)]; rewrite Hs; simpl.
    + exact (IH st).
    + destruct (IH (st ++ [{| email := toLowerCase (trim e); subscriptionDate := t |}])%list)
        as [ext Hext].
      rewrite Hext, <- app_assoc. eexists. reflexivity.
Qed.

(** X13: once an address is subscribed, every later request whose [email]
    differs from it only in letter case or surrounding white space, after
    any sequence of other subscription requests, is answered 409 "This
    email is already subscribed" and nothing is stored. *)
Theorem X13_subscribe_duplicate (isEmail : string -> bool) (now now' : string)
    (st st' : list email_doc) (e e' : string) (m : string)
    (later : list (string * jsval)) :
  subscribe isEmail now st (JStr e) = (SubscribeReply 201 m, st') ->
  toLowerCase (trim e') = toLowerCase (trim e) ->
  subscribe isEmail now' (subscribe_all isEmail later st') (JStr e')
  = (SubscribeReply 409 "This email is already subscribed",
     subscribe_all isEmail later st').
Proof.
  intros H Heq.
  destruct (subscribe_outcome isEmail now st (JStr e))
    as [(s & m' & Hs & Hne) | (e0 & He0 & Hs & Hi & Hp & Hf)]; rewrite Hs in H.
  - injection H as -> _ _. contradiction.
  - injection He0 as <-. injection H as _ <-.
    destruct (subscribe_all_extends isEmail later
                (st ++ [{| email := toLowerCase (trim e); subscriptionDate := now |}])%list)
      as [ext ->].
    assert (Hn : toLowerCase (trim e') <> EmptyString).
    { rewrite Heq. intros He. rewrite He in Hp. discriminate. }
    assert (Ht : truthy (JStr e') = true).
    { simpl. apply negb_true_iff, String.eqb_neq. apply trim_nonempty.
      intros He. apply Hn. rewrite He. reflexivity. }
    unfold subscribe, subscribe_try. rewrite Ht.
    apply String.eqb_neq in Hn. rewrite Hn. rewrite Heq, Hi. simpl.
    rewrite !existsb_app. simpl. rewrite String.eqb_refl. simpl.
    rewrite orb_true_r. reflexivity.
Qed.

Lemma X13_subscribe_duplicate_witness :
  subscribe email_pattern now subscribers (JStr "bob@example.com")
  = (SubscribeReply 201 "Successfully subscribed to newsletter!",
     (subscribers ++ [{| email := "bob@example.com"; subscriptionDate := now |}])%list) /\
  toLowerCase (trim " BOB@example.com") = toLowerCase (trim "bob@example.com") /\
  subscribe email_pattern now
    (subscribe_all email_pattern [(now, JStr "cy@example.org"); (now, JStr "nope")]
       (subscribers ++ [{| email := "bob@example.com"; subscriptionDate := now |}])%list)
    (JStr " BOB@example.com")
  = (SubscribeReply 409 "This email is already subscribed",
     subscribe_all email_pattern [(now, JStr "cy@example.org"); (now, JStr "nope")]
       (subscribers ++ [{| email := "bob@example.com"; subscriptionDate := now |}])%list).
Proof.
  assert (H1 : subscribe email_pattern now subscribers (JStr "bob@example.com")
    = (SubscribeReply 201 "Successfully subscribed to newsletter!",
       (subscribers ++ [{| email := "bob@example.com"; subscriptionDate := now |}])%list))
    by reflexivity.
  assert (H2 : toLowerCase (trim " BOB@example.com") = toLowerCase (trim "bob@example.com"))
    by reflexivity.
  exact (conj H1 (conj H2 (X13_subscribe_duplicate _ _ _ _ _ _ _ _
                             [(now, JStr "cy@example.org"); (now, JStr "nope")] H1 H2))).
Defined.

(** X14: the collection of subscribed addresses keeps its invariant: no
    address twice, and every address trimmed, lowercase and matching the
    schema's pattern. *)
Theorem X14_subscribe_invariant (isEmail : string -> bool) (now : string)
    (st : list email_doc) (v : jsval) :
  NoDup (map email st) ->
  Forall (fun d => toLowerCase (trim (email d)) = email d /\
                   email_pattern (email d) = true) st ->
  NoDup (map email (snd (subscribe isEmail now st v))) /\
  Forall (fun d => toLowerCase (trim (email d)) = email d /\
                   email_pattern (email d) = true)
         (snd (subscribe isEmail now st v)).
Proof.
  intros Hnd Hall.
  destruct (subscribe_outcome isEmail now st v)
    as [(s & m & Hs & _) | (e & -> & Hs & _ & Hp & Hf)]; rewrite Hs; simpl;
    [split; assumption |].
  split.
  - rewrite map_app. simpl. apply NoDup_app; [exact Hnd | repeat constructor; auto |].
    intros x Hx [<- | []]. apply in_map_iff in Hx as [d [Hd Hin]].
    rewrite Forall_forall in Hf. exact (Hf d Hin Hd).
  - apply Forall_app. split; [exact Hall |]. constructor; [| constructor].
    simpl. split; [apply normalize_idem | exact Hp].
Qed.

Lemma X14_subscribe_invariant_witness :
  NoDup (map email subscribers) /\
  Forall (fun d => toLowerCase (trim (email d)) = email d /\
                   email_pattern (email d) = true) subscribers /\
  NoDup (map email (snd (subscribe loose_isEmail now subscribers (JStr "Cy@x.io")))) /\
  Forall (fun d => toLowerCase (trim (email d)) = email d /\
                   email_pattern (email d) = true)
         (snd (subscribe loose_isEmail now subscribers (JStr "Cy@x.io"))).
Proof.
  assert (H1 : NoDup (map email subscribers)) by (repeat constructor; simpl; tauto).
  assert (H2 : Forall (fun d => toLowerCase (trim (email d)) = email d /\
                                email_pattern (email d) = true) subscribers)
    by (repeat constructor).
  exact (conj H1 (conj H2 (X14_subscribe_invariant loose_isEmail now subscribers _ H1 H2))).
Defined.

(** X15: every answer other than 201 leaves the collection unchanged; an
    address that is not yet subscribed is answered 400 "Please enter a
    valid email address" when [isEmail] rejects it, and also when
    [isEmail] accepts it but the schema's pattern does not. *)
Theorem X15_subscribe_rejections (isEmail : string -> bool) (now : string)
    (st : list email_doc) :
  (forall v s m st',
     subscribe isEmail now st v = (SubscribeReply s m, st') -> s <> 201 -> st' = st) /\
  (forall e,
     toLowerCase (trim e) <> EmptyString ->
     Forall (fun d => email d <> toLowerCase (trim e)) st ->
     isEmail (toLowerCase (trim e)) = false \/ email_pattern (toLowerCase (trim e)) = false ->
     subscribe isEmail now st (JStr e)
     = (SubscribeReply 400 "Please enter a valid email address", st)).
Proof.
  split.
  - intros v s m st' H Hs.
    destruct (subscribe_outcome isEmail now st v)
      as [(s' & m' & Hs' & _) | (e & -> & Hs' & _)]; rewrite Hs' in H.
    + injection H as _ _ <-. reflexivity.
    + injection H as <- _ _. contradiction.
  - intros e Hn Hf Hr.
    assert (Ht : truthy (JStr e) = true).
    { simpl. apply negb_true_iff, String.eqb_neq. apply trim_nonempty.
      intros He. apply Hn. rewrite He. reflexivity. }
    unfold subscribe, subscribe_try. rewrite Ht.
    apply String.eqb_neq in Hn. rewrite Hn.
    destruct (isEmail (toLowerCase (trim e))) eqn:Hi; [| reflexivity].
    destruct Hr as [Hr | Hr]; [discriminate |]. simpl.
    assert (Hx : existsb (fun d => String.eqb (email d) (toLowerCase (trim e))) st = false).
    { apply Bool.not_true_iff_false. intros Hx.
      apply existsb_exists in Hx as [d [Hd Heq]]. apply String.eqb_eq in Heq.
      rewrite Forall_forall in Hf. exact (Hf d Hd Heq). }
    rewrite Hx. unfold email_cast. rewrite normalize_idem, Hn, Hr. reflexivity.
Qed.

Lemma X15_subscribe_rejections_witness :
  toLowerCase (trim " A@B ") <> EmptyString /\
  Forall (fun d => email d <> toLowerCase (trim " A@B ")) subscribers /\
  (loose_isEmail (toLowerCase (trim " A@B ")) = false \/
   email_pattern (toLowerCase (trim " A@B ")) = false) /\
  subscribe loose_isEmail now subscribers (JStr " A@B ")
  = (SubscribeReply 400 "Please enter a valid email address", subscribers).
Proof.
  assert (H1 : toLowerCase (trim " A@B ") <> EmptyString) by discriminate.
  assert (H2 : Forall (fun d => email d <> toLowerCase (trim " A@B ")) subscribers)
    by (constructor; [discriminate | constructor]).
  assert (H3 : loose_isEmail (toLowerCase (trim " A@B ")) = false \/
               email_pattern (toLowerCase (trim " A@B ")) = false)
    by (right; reflexivity).
  exact (conj H1 (conj H2 (conj H3
           (proj2 (X15_subscribe_rejections loose_isEmail now subscribers) _ H1 H2 H3)))).
Defined.

(** *** Extra properties: [sanitizeRequest] *)

Section SanitizeProofs.

Variable xss : string -> string.

Lemma sanitize_body_prop_map_strings (v : jsval) :
  sanitize_body_prop xss v = map_strings xss v /\
  match v with
  | JStr s => JStr (xss s)
  | JArr items => JArr (map (sanitize_body_prop xss) items)
  | JObj _ | JDate _ | JObjectId _ => sanitizeObject xss v
  | _ => v
  end = map_strings xss v.
Proof.
  induction v as [| | b | n | s | items IH | ps IH | iso | h] using jsval_ind';
    try (split; reflexivity).
  - assert (Hm : map (sanitize_body_prop xss) items = map (map_strings xss) items).
    { apply map_ext_in. intros x Hx. rewrite Forall_forall in IH. apply (IH x Hx). }
    split; [| rewrite Hm; reflexivity].
    simpl. f_equal. apply map_ext_in. intros x Hx. rewrite Forall_forall in IH.
    exact (proj2 (IH x Hx)).
  - assert (Hm : sanitizeObject xss (JObj ps) = map_strings xss (JObj ps)).
    { simpl. f_equal. apply map_ext_in. intros [k x] Hx. rewrite Forall_forall in IH.
      f_equal. exact (proj2 (IH (k, x) Hx)). }
    split; exact Hm.
Qed.

End SanitizeProofs.

(** X16: [sanitizeRequest] applies [xss] to every string value of the
    body, at any depth of nested objects and arrays, and changes nothing
    else: keys (including ones starting with "$"), numbers, booleans and
    [null] are kept as they are. *)
Theorem X16_sanitizeRequest_deep (xss : string -> string) :
  (forall ps, sanitizeRequest xss (JObj ps) = map_strings xss (JObj ps)) /\
  (forall items, sanitizeRequest xss (JArr items) = map_strings xss (JArr items)).
Proof.
  split.
  - intros ps. unfold sanitizeRequest. simpl. f_equal. apply map_ext.
    intros [k x]. f_equal. apply sanitize_body_prop_map_strings.
  - intros items. unfold sanitizeRequest. simpl. f_equal. apply map_ext.
    intros x. apply sanitize_body_prop_map_strings.
Qed.
